(** * Wardrobe door and liner calculator

    A shallow embedding of the dimensioning engine ([calculate_for_row]) and
    of the diagram layout ([draw_wardrobe_diagram]) of [app.py], with the
    properties the specification states about them.

    Number model.  The Python code computes on [float] (binary64) and
    [int].  Here an [int] is a [Z], and the engine and the diagram are
    written over exact rationals [Q]: sums, products and quotients are the
    mathematical ones, and the rounding the code asks for explicitly
    ([round], [int]) is written out.  The rational model and the code agree
    wherever every intermediate value is a double: on whole-millimetre
    inputs far below 2^53 the fixed-door branch only meets multiples of 1/2.
    They part where binary64 rounds (very large inputs, the last bit of a
    quotient) and on NaN, the value of a blank cell.  For those places
    module [B64] replays the lines concerned on binary64 itself. *)

From Stdlib Require Import ZArith QArith Qround Qminmax Lqa Lia Bool.
From Stdlib Require Import String Ascii List DecimalString Floats.
From Stdlib Require Uint63.
Import ListNotations.

Local Open Scope string_scope.
Local Open Scope Z_scope.
Local Open Scope Q_scope.

(* ================================================================== *)
(** ** Python primitives *)
(* ================================================================== *)

Module Py.

(** Comparisons on floats, as booleans. *)
Definition ltb (x y : Q) : bool :=
  match x ?= y with Lt => true | _ => false end.

Definition leb (x y : Q) : bool :=
  match x ?= y with Gt => false | _ => true end.

Definition eqb (x y : Q) : bool :=
  match x ?= y with Eq => true | _ => false end.

(** [max(a, b)] returns [a] unless [a < b]; [min(a, b)] returns [a]
    unless [b < a].  These are [Qmax] and [Qmin] of the library. *)
Definition max (a b : Q) : Q := Qmax a b.
Definition min (a b : Q) : Q := Qmin a b.

(** [int(x)] on a float truncates towards zero. *)
Definition int (x : Q) : Z := Z.quot (Qnum x) (Zpos (Qden x)).

(** [round(x)] : nearest integer, ties to the even one. *)
Definition round (x : Q) : Z :=
  let f := Qfloor x in
  match ((x - inject_Z f) ?= (1 # 2))%Q with
  | Lt => f
  | Gt => (f + 1)%Z
  | Eq => if Z.even f then f else (f + 1)%Z
  end.

(** [round(x, 1)] : nearest multiple of 0.1, ties to even. *)
Definition round1 (x : Q) : Q := inject_Z (round (x * 10)) / 10.

(** [str(n)] and the [{n}] of an f-string, for an [int]. *)
Definition str (n : Z) : string := NilZero.string_of_int (Z.to_int n).

(** [s.startswith(p)]. *)
Definition startswith (s p : string) : bool := String.prefix p s.

(** [x in xs] for a float against a list of ints. *)
Definition contains (xs : list Z) (x : Q) : bool :=
  existsb (fun k => eqb x (inject_Z k)) xs.

(** [d.get(k, default)] on a dict literal, kept as its list of items. *)
Fixpoint dict_get {K V : Type} (keq : K -> K -> bool)
         (d : list (K * V)) (k : K) (default : V) : V :=
  match d with
  | [] => default
  | (k', v) :: d' => if keq k' k then v else dict_get keq d' k default
  end.

(** Exceptions and the result of a call that may raise. *)
Inductive exn : Type :=
| KeyError (key : string)
| ValueError (msg : string)
| OverflowError (msg : string).

Inductive outcome (A : Type) : Type :=
| Returned (a : A)
| Raised (e : exn).
Arguments Returned {A} a.
Arguments Raised {A} e.

Definition bind {A B : Type} (m : outcome A) (k : A -> outcome B) : outcome B :=
  match m with
  | Returned a => k a
  | Raised e => Raised e
  end.

(** [row[key]] raises [KeyError] on an absent column;
    [row.get(key, default)] does not. *)
Definition getitem {A : Type} (key : string) (cell : option A) : outcome A :=
  match cell with
  | Some v => Returned v
  | None => Raised (KeyError key)
  end.

Definition get {A : Type} (cell : option A) (default : A) : A :=
  match cell with
  | Some v => v
  | None => default
  end.

End Py.

Notation "x <- m ;; k" := (Py.bind m (fun x => k))
  (at level 61, m at next level, right associativity).

Import Py(Returned, Raised, KeyError, ValueError, OverflowError).

Local Coercion inject_Z : Z >-> Q.

(* ================================================================== *)
(** ** System constants *)
(* ================================================================== *)

Definition BOTTOM_LINER_THICKNESS : Z := 36.
Definition SIDE_LINER_THICKNESS : Z := 18.
Definition TRACKSET_TOLERANCE : Z := 54.
Definition MAX_DOOR_HEIGHT : Z := 2431.
Definition MAX_DROPDOWN_LIMIT : Z := 400.

Definition FIXED_DOOR_HEIGHT : Z := 2223.
Definition FIXED_DOOR_WIDTH_OPTIONS : list Z := [610; 762; 914]%Z.

Definition OVERLAP_TOLERANCES : list (Z * Z) := [(2, 75); (3, 150); (4, 150)]%Z.
Definition DEFAULT_FIXED_OVERLAP_TOLERANCE : Z := 150.

Definition TOP_LINER_OPTIONS : list (string * Z) :=
  [("108mm Dropdown", 108); ("90mm Dropdown", 90);
   ("50mm Dropdown", 50); ("No dropdown (0mm)", 0)]%Z.

Definition BESPOKE_DROPDOWN_LABEL : string := "Bespoke dropdown (auto)".

Definition CUSTOM_DOOR_OVERLAP_MM : Z := 25.

Definition DOOR_SYSTEM_OPTIONS : list string :=
  ["Made to measure doors"; "Fixed 2223mm doors"].

Definition ISSUE_OK : string := "✅ OK".
Definition ISSUE_CHECK : string := "🔴 Check height".

(* ================================================================== *)
(** ** Data model *)
(* ================================================================== *)

(** One row of the openings table.  A column may be absent ([None]). *)
Record Row : Type := mkRow {
  Width_mm : option Q;
  Height_mm : option Q;
  Doors : option Z;
  Door_System : option string;
  Top_Liner_Option : option string;
  Fixed_Door_Width_mm : option Q
}.

(** The series [calculate_for_row] returns. *)
Record DimensionResult : Type := mkResult {
  Door_Height_mm : Z;
  Door_Width_mm : Z;
  Doors_Used : Z;
  Dropdown_Height_mm : Z;
  Recommended_Dropdown_Height_mm : option Z;
  Side_Liner_Thickness_mm : Q;
  Required_Buildout_Per_Side_mm : Q;
  Net_Width_mm : Z;
  Door_Span_mm : Z;
  Overlap_Tolerance_mm : Z;
  Span_Diff_mm : Q;
  Bottom_Liner_Length_mm : Z;
  Side_Liner_Length_mm : Z;
  Dropdown_Length_mm : Z;
  Trackset_Tolerance_mm : Z;
  Height_Status : string;
  Issue : string
}.

(* ================================================================== *)
(** ** The dimensioning engine: [calculate_for_row] *)
(* ================================================================== *)

(** *** Fixed 2223mm door system *)

(** The user-selected door width, with the fallback to 762. *)
Definition fixed_door_width (row : Row) : Q :=
  let door_width := Py.get (Fixed_Door_Width_mm row) 762 in
  if negb (Py.contains FIXED_DOOR_WIDTH_OPTIONS door_width) then 762
  else door_width.

Definition fixed_dropdown_h_raw (height : Q) : Q :=
  height - BOTTOM_LINER_THICKNESS - TRACKSET_TOLERANCE - FIXED_DOOR_HEIGHT.

Definition FIXED_TOO_SMALL : string :=
  ("Opening too small for 2223mm door plus 36mm bottom liner and "
   ++ Py.str TRACKSET_TOLERANCE ++ "mm trackset tolerance.")%string.

Definition fixed_exceeds (dropdown_h_raw : Q) : string :=
  ("Dropdown needed is " ++ Py.str (Py.int dropdown_h_raw) ++ "mm – exceeds "
   ++ "max allowed " ++ Py.str MAX_DROPDOWN_LIMIT ++ "mm (including "
   ++ Py.str TRACKSET_TOLERANCE ++ "mm trackset tolerance).")%string.

(** The dropdown used and the height status, from the opening height. *)
Definition fixed_dropdown (height : Q) : Q * string :=
  let dropdown_h_raw := fixed_dropdown_h_raw height in
  if Py.ltb dropdown_h_raw 0 then (0, FIXED_TOO_SMALL)
  else if Py.ltb MAX_DROPDOWN_LIMIT dropdown_h_raw then
    (inject_Z MAX_DROPDOWN_LIMIT, fixed_exceeds dropdown_h_raw)
  else (dropdown_h_raw, "OK"%string).

(** [OVERLAP_TOLERANCES.get(doors, DEFAULT_FIXED_OVERLAP_TOLERANCE)]. *)
Definition fixed_tol (doors : Z) : Z :=
  Py.dict_get Z.eqb OVERLAP_TOLERANCES doors DEFAULT_FIXED_OVERLAP_TOLERANCE.

Definition fixed_door_span (doors : Z) (door_width : Q) : Q :=
  doors * door_width.

Definition fixed_side_thk_raw (width : Q) (doors : Z) (door_width : Q) : Q :=
  (width - fixed_door_span doors door_width + fixed_tol doors) / 2.

(** Side thickness can't be negative. *)
Definition fixed_side_thk (width : Q) (doors : Z) (door_width : Q) : Q :=
  let side_thk_raw := fixed_side_thk_raw width doors door_width in
  if Py.ltb side_thk_raw 0 then 0 else side_thk_raw.

Definition calculate_fixed (width height : Q) (doors : Z) (row : Row)
  : DimensionResult :=
  let door_height := FIXED_DOOR_HEIGHT in
  let door_width := fixed_door_width row in
  let dropdown_h := fst (fixed_dropdown height) in
  let height_status := snd (fixed_dropdown height) in
  let tol := fixed_tol doors in
  let door_span := fixed_door_span doors door_width in
  let side_thk := fixed_side_thk width doors door_width in
  let net_width := width - 2 * side_thk in
  let span_diff := door_span - (net_width + tol) in
  let build_out_per_side := Py.max (side_thk - SIDE_LINER_THICKNESS) 0 in
  let issue_flag :=
    if String.eqb height_status "OK" then ISSUE_OK else ISSUE_CHECK in
  {| Door_Height_mm := Py.round door_height;
     Door_Width_mm := Py.round door_width;
     Doors_Used := doors;
     Dropdown_Height_mm := Py.round dropdown_h;
     Recommended_Dropdown_Height_mm := None;
     Side_Liner_Thickness_mm := Py.round1 side_thk;
     Required_Buildout_Per_Side_mm := Py.round1 build_out_per_side;
     Net_Width_mm := Py.round net_width;
     Door_Span_mm := Py.round door_span;
     Overlap_Tolerance_mm := Py.round tol;
     Span_Diff_mm := Py.round1 span_diff;
     Bottom_Liner_Length_mm := Py.round net_width;
     Side_Liner_Length_mm := Py.round height;
     Dropdown_Length_mm := Py.round net_width;
     Trackset_Tolerance_mm := TRACKSET_TOLERANCE;
     Height_Status := height_status;
     Issue := issue_flag |}.

(** *** Made to measure doors *)

Definition base_usable_height (height : Q) : Q :=
  height - BOTTOM_LINER_THICKNESS - TRACKSET_TOLERANCE.

(** What the height part of the made-to-measure branch leaves behind:
    [dropdown_h], [final_door_h], [height_status], [recommended_dropdown]. *)
Record HeightPlan : Type := mkHeightPlan {
  dropdown_h : Q;
  final_door_h : Q;
  height_status : string;
  recommended_dropdown : option Z
}.

(** Bespoke dropdown. *)
Definition bespoke_ideal_dropdown (base : Q) : Q :=
  let ideal_door_height := Py.min MAX_DOOR_HEIGHT base in
  Py.max (base - ideal_door_height) 0.

Definition bespoke_dropdown_h (base : Q) : Q :=
  Py.min (bespoke_ideal_dropdown base) MAX_DROPDOWN_LIMIT.

Definition bespoke_final_door_h (base : Q) : Q :=
  let raw_door_height := base - bespoke_dropdown_h base in
  let raw_door_height := Py.max raw_door_height 0 in
  Py.min raw_door_height MAX_DOOR_HEIGHT.

(** The three arms of the [if] / [elif] / [else] that picks the status. *)
Inductive bespoke_arm : Type :=
| BespokeOk
| BespokeTooTall
| BespokeCheck.

Definition bespoke_arm_of (ideal_dropdown final_door_h : Q) : bespoke_arm :=
  if Py.leb ideal_dropdown MAX_DROPDOWN_LIMIT
     && Py.leb final_door_h MAX_DOOR_HEIGHT then BespokeOk
  else if Py.ltb MAX_DROPDOWN_LIMIT ideal_dropdown then BespokeTooTall
  else BespokeCheck.

Definition BESPOKE_OK : string :=
  "OK (bespoke dropdown auto-calculated for fit)".

Definition bespoke_too_tall (ideal_dropdown : Q) : string :=
  ("Too tall for perfect fit with max " ++ Py.str MAX_DROPDOWN_LIMIT
   ++ "mm bespoke dropdown " ++ "(ideal dropdown would be about "
   ++ Py.str (Py.round ideal_dropdown) ++ "mm). "
   ++ "Door height capped at " ++ Py.str MAX_DOOR_HEIGHT ++ "mm.")%string.

Definition BESPOKE_CHECK : string := "Check height / dropdown settings.".

Definition bespoke_status (ideal_dropdown final_door_h : Q) : string :=
  match bespoke_arm_of ideal_dropdown final_door_h with
  | BespokeOk => BESPOKE_OK
  | BespokeTooTall => bespoke_too_tall ideal_dropdown
  | BespokeCheck => BESPOKE_CHECK
  end.

Definition plan_bespoke (base : Q) : HeightPlan :=
  let ideal_dropdown := bespoke_ideal_dropdown base in
  let dropdown_h := bespoke_dropdown_h base in
  let final_door_h := bespoke_final_door_h base in
  {| dropdown_h := dropdown_h;
     final_door_h := final_door_h;
     height_status := bespoke_status ideal_dropdown final_door_h;
     recommended_dropdown := Some (Py.round dropdown_h) |}.

(** Fixed dropdown options (108 / 90 / 50 / 0mm). *)
Definition too_tall_for_selected (dropdown_needed_for_max : Q) : string :=
  ("Too tall for selected dropdown – " ++ "need about "
   ++ Py.str (Py.round dropdown_needed_for_max) ++ "mm dropdown "
   ++ "(includes " ++ Py.str TRACKSET_TOLERANCE
   ++ "mm trackset tolerance).")%string.

Definition TOO_TALL_AT_MAX : string :=
  ("Too tall even at max " ++ Py.str MAX_DROPDOWN_LIMIT ++ "mm dropdown "
   ++ "(includes " ++ Py.str TRACKSET_TOLERANCE
   ++ "mm trackset tolerance).")%string.

Definition plan_selected (option : string) (base : Q) : HeightPlan :=
  let selected_dropdown := Py.dict_get String.eqb TOP_LINER_OPTIONS option 108%Z in
  let dropdown_h := Py.min selected_dropdown MAX_DROPDOWN_LIMIT in
  let raw_door_height := base - dropdown_h in
  let raw_door_height := Py.max raw_door_height 0 in
  let dropdown_needed_for_max := base - MAX_DOOR_HEIGHT in
  if Py.leb raw_door_height MAX_DOOR_HEIGHT then
    {| dropdown_h := dropdown_h;
       final_door_h := raw_door_height;
       height_status := "OK";
       recommended_dropdown := None |}
  else
    {| dropdown_h := dropdown_h;
       final_door_h := MAX_DOOR_HEIGHT;
       height_status :=
         if Py.leb dropdown_needed_for_max MAX_DROPDOWN_LIMIT
         then too_tall_for_selected dropdown_needed_for_max
         else TOO_TALL_AT_MAX;
       recommended_dropdown := None |}.

Definition mtm_door_width (net_width : Q) (doors : Z) : Q :=
  if (0 <? doors)%Z
  then (net_width + (doors - 1)%Z * CUSTOM_DOOR_OVERLAP_MM) / doors
  else 0.

Definition calculate_made_to_measure (width height : Q) (doors : Z) (row : Row)
  : DimensionResult :=
  let side_liner_thk := SIDE_LINER_THICKNESS in
  let net_width := width - 2 * side_liner_thk in
  let option := Py.get (Top_Liner_Option row) "108mm Dropdown"%string in
  let base := base_usable_height height in
  let plan :=
    if String.eqb option BESPOKE_DROPDOWN_LABEL then plan_bespoke base
    else plan_selected option base in
  let overlap_mm := CUSTOM_DOOR_OVERLAP_MM in
  let door_width := mtm_door_width net_width doors in
  let door_span := doors * door_width in
  let total_overlap := ((doors - 1) * overlap_mm)%Z in
  let issue_flag :=
    if Py.startswith (height_status plan) "OK" then ISSUE_OK
    else ISSUE_CHECK in
  {| Door_Height_mm := Py.round (final_door_h plan);
     Door_Width_mm := Py.round door_width;
     Doors_Used := doors;
     Dropdown_Height_mm := Py.round (dropdown_h plan);
     Recommended_Dropdown_Height_mm := recommended_dropdown plan;
     Side_Liner_Thickness_mm := Py.round1 side_liner_thk;
     Required_Buildout_Per_Side_mm := 0;
     Net_Width_mm := Py.round net_width;
     Door_Span_mm := Py.round door_span;
     Overlap_Tolerance_mm := Py.round total_overlap;
     Span_Diff_mm := 0;
     Bottom_Liner_Length_mm := Py.round net_width;
     Side_Liner_Length_mm := Py.round height;
     Dropdown_Length_mm := Py.round net_width;
     Trackset_Tolerance_mm := TRACKSET_TOLERANCE;
     Height_Status := height_status plan;
     Issue := issue_flag |}.

(** *** Validation and dispatch *)

Definition FIXED_SYSTEM : string := "Fixed 2223mm doors".
Definition MADE_TO_MEASURE : string := "Made to measure doors".

(** Basic validation / clamping of the three numeric columns. *)
Definition clamp_width (w : Q) : Q := Py.max w 1.
Definition clamp_height (h : Q) : Q := Py.max h 1.
Definition clamp_doors (d : Z) : Z := Z.max d 1.

Definition calculate_for_row (row : Row) : Py.outcome DimensionResult :=
  w <- Py.getitem "Width_mm" (Width_mm row) ;;
  let width := clamp_width w in
  h <- Py.getitem "Height_mm" (Height_mm row) ;;
  let height := clamp_height h in
  d <- Py.getitem "Doors" (Doors row) ;;
  let doors := clamp_doors d in
  let door_system := Py.get (Door_System row) MADE_TO_MEASURE in
  if String.eqb door_system FIXED_SYSTEM
  then Returned (calculate_fixed width height doors row)
  else Returned (calculate_made_to_measure width height doors row).

(** The rows of the specification's scenarios. *)
Definition scenario_A : Row :=
  mkRow (Some 2200) (Some 2600) (Some 3%Z) (Some MADE_TO_MEASURE)
        (Some "108mm Dropdown"%string) (Some 762).

Definition scenario_B : Row :=
  mkRow (Some 2200) (Some 2600) (Some 3%Z) (Some FIXED_SYSTEM)
        (Some "108mm Dropdown"%string) (Some 762).

Definition scenario_D : Row :=
  mkRow (Some 2200) (Some 2600) (Some 2%Z) (Some MADE_TO_MEASURE)
        (Some BESPOKE_DROPDOWN_LABEL) (Some 762).

(* ================================================================== *)
(** ** The diagram: [draw_wardrobe_diagram] *)
(* ================================================================== *)

(** What the function puts on the axes, in the order of the calls:
    [add_patch(Rectangle(...))], [annotate(...)] and [text(...)]. *)
Record Rectangle : Type := mkRectangle {
  rect_x : Q;
  rect_y : Q;
  rect_width : Q;
  rect_height : Q;
  rect_fill : bool;
  rect_dashed : bool
}.

Inductive artist : Type :=
| Patch (r : Rectangle)
| Annotate (text : string) (xy xytext : Q * Q) (arrow : option string)
| Text (x y : Q) (s : string).

Definition nl : string := String "010"%char EmptyString.

Definition DROPDOWN_NOTE : string :=
  ("Drop-down to be fixed using" ++ nl ++ "metal stretcher brackets." ++ nl
   ++ "2x into side liners and" ++ nl ++ "brackets every 600mm.")%string.

Definition SIDE_NOTE : string :=
  ("Side liners fixings -" ++ nl ++ "200mm in from either end" ++ nl
   ++ "and then two in the middle" ++ nl ++ "of the liner (equally spaced),"
   ++ nl ++ "so 4x fixings in total.")%string.

Definition SUB_CILL_NOTE : string :=
  ("Sub-cill to floor - fixing every 500mm" ++ nl
   ++ "Sub-cill to carpet - fixing every 200mm")%string.

Definition BOTTOM_TRACK_NOTE : string :=
  ("Bottom track fixing - 50-80mm in from ends" ++ nl
   ++ "and then every 800mm of track span.")%string.

(** The normalised width of one door before the clamp. *)
Definition door_width_rel_of (opening_width_mm door_width_mm : Q) : Q :=
  if Py.ltb 0 opening_width_mm then door_width_mm / opening_width_mm else 0.

(** Clamp so doors don't visually extend beyond opening. *)
Definition clamp_door_width_rel (num_doors : Z) (side_rel door_width_rel : Q) : Q :=
  let total_doors_span := num_doors * door_width_rel in
  let available_span := 1 - 2 * side_rel in
  if Py.ltb available_span total_doors_span && Py.ltb 0 total_doors_span then
    let scale := available_span / total_doors_span in
    door_width_rel * scale
  else door_width_rel.

(** [for _ in range(num_doors)]: one dashed rectangle per door. *)
Fixpoint door_leaves (n : nat) (x_start bottom_rel door_width_rel door_h_rel : Q)
  : list artist :=
  match n with
  | O => []
  | S n' =>
      Patch (mkRectangle x_start bottom_rel door_width_rel door_h_rel false true)
      :: door_leaves n' (x_start + door_width_rel) bottom_rel door_width_rel door_h_rel
  end.

Definition draw_wardrobe_diagram
  (opening_width_mm opening_height_mm bottom_thk_mm side_thk_mm
   dropdown_height_mm door_height_mm : Q) (num_doors : Z) (door_width_mm : Q)
  (dropdown_label : string) : list artist :=
  let opening_width_mm := Py.max opening_width_mm 1 in
  let opening_height_mm := Py.max opening_height_mm 1 in
  let num_doors := Z.max num_doors 1 in
  let side_thk_mm := Py.max side_thk_mm 0 in
  let side_rel := side_thk_mm / opening_width_mm in
  let bottom_rel := bottom_thk_mm / opening_height_mm in
  let dropdown_rel :=
    if Py.ltb 0 dropdown_height_mm then dropdown_height_mm / opening_height_mm
    else 0 in
  let door_h_rel :=
    if Py.ltb 0 door_height_mm then door_height_mm / opening_height_mm
    else 0 in
  let door_width_mm := Py.max door_width_mm 0 in
  let door_width_rel := door_width_rel_of opening_width_mm door_width_mm in
  let door_width_rel := clamp_door_width_rel num_doors side_rel door_width_rel in
  [ Patch (mkRectangle 0 0 1 1 false false);
    Patch (mkRectangle 0 bottom_rel side_rel (1 - bottom_rel) true false);
    Patch (mkRectangle (1 - side_rel) bottom_rel side_rel (1 - bottom_rel) true false);
    Patch (mkRectangle side_rel 0 (1 - 2 * side_rel) bottom_rel true false) ]
  ++ (if Py.ltb 0 dropdown_rel then
        [ Patch (mkRectangle side_rel (1 - dropdown_rel) (1 - 2 * side_rel)
                             dropdown_rel true false);
          Annotate DROPDOWN_NOTE (1 # 2, 1 - dropdown_rel / 2)
                   (128 # 100, 1 - dropdown_rel / 2) (Some "->"%string) ]
      else [])
  ++ door_leaves (Z.to_nat num_doors) side_rel bottom_rel door_width_rel door_h_rel
  ++ [ Annotate SIDE_NOTE (side_rel / 2, 1 # 2) (- (34 # 100), 72 # 100) None;
       Annotate SUB_CILL_NOTE (1 # 2, bottom_rel / 2) (1 # 2, - (20 # 100)) None;
       Annotate BOTTOM_TRACK_NOTE (1 # 2, bottom_rel + (2 # 100))
                (128 # 100, bottom_rel + (18 # 100)) (Some "->"%string) ]
  ++ (if String.eqb dropdown_label "" then []
      else [ Text (1 # 2) (105 # 100) dropdown_label ])
  ++ [ Annotate "" (- (20 # 100), 0) (- (20 # 100), 1) (Some "<->"%string);
       Text (- (27 # 100)) (1 # 2) (Py.str (Py.int opening_height_mm) ++ "mm")%string;
       Annotate "" (0, - (6 # 100)) (1, - (6 # 100)) (Some "<->"%string);
       Text (1 # 2) (- (10 # 100)) (Py.str (Py.int opening_width_mm) ++ "mm")%string ].

(** The dashed rectangles of a figure are its door leaves. *)
Definition rendered_doors (fig : list artist) : list Rectangle :=
  flat_map (fun a => match a with
                     | Patch r => if rect_dashed r then [r] else []
                     | _ => []
                     end) fig.

Definition total_width (rs : list Rectangle) : Q :=
  fold_right (fun r acc => rect_width r + acc) 0 rs.

(** *** The visualisation step of the page *)

(** The label above the opening, from the row of [results_df]. *)
Definition dropdown_label_for (row : Row) (res : DimensionResult)
  : Py.outcome string :=
  let dropdown_height_int := Dropdown_Height_mm res in
  let plain :=
    if (0 <? dropdown_height_int)%Z
    then (Py.str dropdown_height_int ++ "mm DROPDOWN")%string
    else "NO DROPDOWN"%string in
  door_system <- Py.getitem "Door_System" (Door_System row) ;;
  if String.eqb door_system MADE_TO_MEASURE then
    option <- Py.getitem "Top_Liner_Option" (Top_Liner_Option row) ;;
    if String.eqb option BESPOKE_DROPDOWN_LABEL then
      if (0 <? dropdown_height_int)%Z
      then Returned ("BESPOKE " ++ Py.str dropdown_height_int ++ "mm DROPDOWN")%string
      else Returned "BESPOKE – NO DROPDOWN"%string
    else Returned plain
  else Returned plain.

(** One row of [results_df]: the input columns next to the computed ones.
    The step reads the row, draws, and leaves the row as it found it; the
    pair returned is the row afterwards and the figure. *)
Definition visualise (row : Row) (res : DimensionResult)
  : Py.outcome ((Row * DimensionResult) * list artist) :=
  dropdown_label <- dropdown_label_for row res ;;
  opening_width_mm <- Py.getitem "Width_mm" (Width_mm row) ;;
  opening_height_mm <- Py.getitem "Height_mm" (Height_mm row) ;;
  let fig :=
    draw_wardrobe_diagram opening_width_mm opening_height_mm
      BOTTOM_LINER_THICKNESS (Side_Liner_Thickness_mm res)
      (Dropdown_Height_mm res) (Door_Height_mm res) (Doors_Used res)
      (Door_Width_mm res) dropdown_label in
  Returned ((row, res), fig).

(* ================================================================== *)
(** ** The results table of the page *)
(* ================================================================== *)

(** [edited_df.apply(calculate_for_row, axis=1)] next to the input columns
    ([pd.concat(..., axis=1)]): the rows are computed in order and the first
    exception ends the run. *)
Fixpoint apply_rows (edited_df : list Row)
  : Py.outcome (list (Row * DimensionResult)) :=
  match edited_df with
  | [] => Returned []
  | row :: rest =>
      calc <- calculate_for_row row ;;
      calcs <- apply_rows rest ;;
      Returned ((row, calc) :: calcs)
  end.

(** [not all(str(s).startswith("OK") for s in results_df["Height_Status"])]. *)
Definition height_warning (results_df : list (Row * DimensionResult)) : bool :=
  negb (forallb (fun rr => Py.startswith (Height_Status (snd rr)) "OK")
                results_df).

(** [results_df[results_df["Issue"] != "✅ OK"]]. *)
Definition problem_rows (results_df : list (Row * DimensionResult))
  : list (Row * DimensionResult) :=
  filter (fun rr => negb (String.eqb (Issue (snd rr)) ISSUE_OK)) results_df.

(** What section 2 of the page shows: the table, whether the warning is
    raised, and the table of openings to check when there are any. *)
Record ResultsSection : Type := mkResultsSection {
  results_df : list (Row * DimensionResult);
  warning_shown : bool;
  openings_to_check : option (list (Row * DimensionResult))
}.

(** [None] stands for the note "Add at least one opening ...". *)
Definition results_section (edited_df : list Row)
  : Py.outcome (option ResultsSection) :=
  if (0 <? length edited_df)%nat then
    results <- apply_rows edited_df ;;
    Returned
      (Some {| results_df := results;
               warning_shown := height_warning results;
               openings_to_check :=
                 match problem_rows results with
                 | [] => None
                 | _ :: _ => Some (problem_rows results)
                 end |})
  else Returned None.

(** The note on the dropdown fixing, among the artists of a figure. *)
Definition is_dropdown_note (a : artist) : bool :=
  match a with
  | Annotate text _ _ _ => String.eqb text DROPDOWN_NOTE
  | _ => false
  end.

(* ================================================================== *)
(** ** Binary64 replay *)
(* ================================================================== *)

(** The lines of the code where binary64 and the rationals part, replayed
    on doubles: every [+], [-], [*], [/] below is the IEEE 754 operation,
    rounded to the nearest double, and a comparison with NaN is false. *)
Module B64.

(** [max(a, b)] keeps [a] unless [b > a]; [min(a, b)] keeps [a] unless
    [b < a]. *)
Definition max (a b : float) : float := if (a <? b)%float then b else a.
Definition min (a b : float) : float := if (b <? a)%float then b else a.

(** [float(n)] for an [int]: the nearest double.  Below 2^62 the machine's
    own conversion gives it. *)
Definition of_int (n : Z) : float :=
  if ((0 <=? n) && (n <? 4611686018427387904))%Z
  then PrimFloat.of_uint63 (Uint63.of_Z n)
  else SF2Prim (binary_normalize prec emax n 0 false).

(** The double that stands for a decimal the engine reports, [round(x, 1)]
    say: the nearest one. *)
Definition of_Q (q : Q) : float :=
  (of_int (Qnum q) / of_int (Zpos (Qden q)))%float.

(** The rational a double stands for; none for NaN and the infinities. *)
Definition to_Q (x : float) : option Q :=
  match Prim2SF x with
  | S754_zero _ => Some 0
  | S754_finite s m e =>
      let v := match e with
               | Z0 => inject_Z (Zpos m)
               | Zpos p => inject_Z (Zpos m * 2 ^ Zpos p)
               | Zneg p => Zpos m # 2 ^ p
               end in
      Some (if s then - v else v)
  | S754_infinity _ => None
  | S754_nan => None
  end.

(** [int(round(x))]: [round] raises on NaN and on an infinity. *)
Definition int_round (x : float) : Py.outcome Z :=
  match to_Q x with
  | Some q => Returned (Py.round q)
  | None =>
      if PrimFloat.is_nan x
      then Raised (ValueError "cannot convert float NaN to integer")
      else Raised (OverflowError "cannot convert float infinity to integer")
  end.

(** The decimal that [round(x, 1)] rounds a finite [x] to; what Python
    returns is the double nearest to it. *)
Definition round1_decimal (x : float) : option Q :=
  match to_Q x with
  | Some q => Some (Py.round1 q)
  | None => None
  end.

(** *** Fixed system, lines 408-423: the widths *)

Record FixedWidths : Type := mkFixedWidths {
  door_span : float;
  side_thk_raw : float;
  side_thk : float;
  net_width : float;
  span_diff : float
}.

Definition fixed_widths (width : float) (doors : Z) (door_width : float)
  : FixedWidths :=
  let tol := fixed_tol doors in
  let door_span := (of_int doors * door_width)%float in
  let side_thk_raw := ((width - door_span + of_int tol) / 2)%float in
  let side_thk := if (side_thk_raw <? 0)%float then 0%float else side_thk_raw in
  let net_width := (width - 2 * side_thk)%float in
  let span_diff := (door_span - (net_width + of_int tol))%float in
  {| door_span := door_span;
     side_thk_raw := side_thk_raw;
     side_thk := side_thk;
     net_width := net_width;
     span_diff := span_diff |}.

(** *** Bespoke dropdown, lines 369-370 and 459-487 *)

Record BespokeRun : Type := mkBespokeRun {
  ideal_dropdown : float;
  dropdown_h : float;
  final_door_h : float;
  arm : bespoke_arm;
  recommended_dropdown : Py.outcome Z
}.

(** The arm of the status choice that is executed. *)
Definition bespoke_arm_of (ideal_dropdown final_door_h : float) : bespoke_arm :=
  if ((ideal_dropdown <=? of_int MAX_DROPDOWN_LIMIT)
      && (final_door_h <=? of_int MAX_DOOR_HEIGHT))%float then BespokeOk
  else if (of_int MAX_DROPDOWN_LIMIT <? ideal_dropdown)%float then BespokeTooTall
  else BespokeCheck.

(** From the height cell of the row to the recommended dropdown. *)
Definition bespoke (height_cell : float) : BespokeRun :=
  let height := max height_cell 1 in
  let base_usable_height :=
    (height - of_int BOTTOM_LINER_THICKNESS - of_int TRACKSET_TOLERANCE)%float in
  let ideal_door_height := min (of_int MAX_DOOR_HEIGHT) base_usable_height in
  let ideal_dropdown := max (base_usable_height - ideal_door_height)%float 0 in
  let dropdown_h := min ideal_dropdown (of_int MAX_DROPDOWN_LIMIT) in
  let raw_door_height := (base_usable_height - dropdown_h)%float in
  let raw_door_height := max raw_door_height 0 in
  let final_door_h := min raw_door_height (of_int MAX_DOOR_HEIGHT) in
  {| ideal_dropdown := ideal_dropdown;
     dropdown_h := dropdown_h;
     final_door_h := final_door_h;
     arm := bespoke_arm_of ideal_dropdown final_door_h;
     recommended_dropdown := int_round dropdown_h |}.

(** *** Diagram, lines 77-83 and 161-183: the door leaves *)

(** Clamp so doors don't visually extend beyond opening. *)
Definition clamp_door_width_rel (num_doors : Z) (side_rel door_width_rel : float)
  : float :=
  let total_doors_span := (of_int num_doors * door_width_rel)%float in
  let available_span := (1 - 2 * side_rel)%float in
  if ((available_span <? total_doors_span) && (0 <? total_doors_span))%float
  then
    let scale := (available_span / total_doors_span)%float in
    (door_width_rel * scale)%float
  else door_width_rel.

(** One leaf per door: where it starts and how wide it is. *)
Fixpoint door_leaves (n : nat) (x_start door_width_rel : float)
  : list (float * float) :=
  match n with
  | O => []
  | S n' =>
      (x_start, door_width_rel)
      :: door_leaves n' (x_start + door_width_rel)%float door_width_rel
  end.

Definition side_rel_of (opening_width_mm side_thk_mm : float) : float :=
  (max side_thk_mm 0 / max opening_width_mm 1)%float.

Definition door_width_rel_of (opening_width_mm door_width_mm : float) : float :=
  let opening_width_mm := max opening_width_mm 1 in
  let door_width_mm := max door_width_mm 0 in
  if (0 <? opening_width_mm)%float
  then (door_width_mm / opening_width_mm)%float else 0%float.

Definition draw_doors (opening_width_mm side_thk_mm : float) (num_doors : Z)
           (door_width_mm : float) : list (float * float) :=
  let num_doors := Z.max num_doors 1 in
  let side_rel := side_rel_of opening_width_mm side_thk_mm in
  let door_width_rel := door_width_rel_of opening_width_mm door_width_mm in
  let door_width_rel := clamp_door_width_rel num_doors side_rel door_width_rel in
  door_leaves (Z.to_nat num_doors) side_rel door_width_rel.

(** [available_span], the span between the side liners. *)
Definition available_span (opening_width_mm side_thk_mm : float) : float :=
  (1 - 2 * side_rel_of opening_width_mm side_thk_mm)%float.

(** What the leaves span as they are drawn: the sum of their widths, taken
    exactly. *)
Fixpoint leaves_span (leaves : list (float * float)) : option Q :=
  match leaves with
  | [] => Some 0
  | (_, door_width_rel) :: rest =>
      match to_Q door_width_rel, leaves_span rest with
      | Some a, Some b => Some (a + b)
      | _, _ => None
      end
  end.

(** *** Measuring the leaves against the span between the liners *)

(** A double as a multiple of 2^-64, when it is one. *)
Definition scaled (x : float) : option Z :=
  match Prim2SF x with
  | S754_zero _ => Some 0%Z
  | S754_finite s m e =>
      if (-64 <=? e)%Z
      then let v := Z.shiftl (Zpos m) (e + 64) in
           Some (if s then (- v)%Z else v)
      else None
  | S754_infinity _ => None
  | S754_nan => None
  end.

(** Do the leaves drawn for these inputs span the space between the liners
    to within 2^-51 (8192 units of 2^-64)? *)
Definition leaves_fit (opening_width_mm side_thk_mm : float) (num_doors : Z)
           (door_width_mm : float) : bool :=
  let num_doors := Z.max num_doors 1 in
  let side_rel := side_rel_of opening_width_mm side_thk_mm in
  let door_width_rel := door_width_rel_of opening_width_mm door_width_mm in
  match scaled (clamp_door_width_rel num_doors side_rel door_width_rel),
        scaled (available_span opening_width_mm side_thk_mm) with
  | Some t, Some a => (Z.abs (num_doors * t - a) <=? 8192)%Z
  | _, _ => false
  end.

(** The whole numbers from [lo], [count] of them. *)
Fixpoint range (lo : Z) (count : nat) : list Z :=
  match count with
  | O => []
  | S count' => lo :: range (lo + 1) count'
  end.

(** The check on every row of a table of openings, in each door system; the
    side liner thickness and the door width are the ones the engine
    reports. *)
Definition all_leaves_fit (widths door_counts : list Z) : bool :=
  forallb (fun width : Z =>
    forallb (fun doors : Z =>
      leaves_fit (of_int width) (of_Q (Py.round1 SIDE_LINER_THICKNESS)) doors
        (of_int (Py.round
                   (mtm_door_width (width - 2 * SIDE_LINER_THICKNESS) doors)))
      && forallb (fun door_width : Z =>
           leaves_fit (of_int width)
             (of_Q (Py.round1 (fixed_side_thk width doors door_width))) doors
             (of_int (Py.round door_width)))
           FIXED_DOOR_WIDTH_OPTIONS)
      door_counts) widths.

(** Openings of 300 to 6000 whole millimetres, one to ten doors. *)
Definition table_widths : list Z := range 300 (Z.to_nat 5701).
Definition table_door_counts : list Z := range 1 10.

End B64.

(* ================================================================== *)
(** ** Facts about the primitives *)
(* ================================================================== *)

(** Literal integers read as literal rationals, for [lra] and [field]. *)
Ltac literals :=
  repeat match goal with
         | |- context [inject_Z (Zpos ?p)] =>
             change (inject_Z (Zpos p)) with (Zpos p # 1)
         | |- context [inject_Z Z0] => change (inject_Z Z0) with 0
         end.

Section PyFacts.

Lemma ltb_spec (x y : Q) : Py.ltb x y = true <-> x < y.
Proof.
  unfold Py.ltb. rewrite Qlt_alt.
  destruct (x ?= y); split; congruence.
Qed.

Lemma ltb_false (x y : Q) : Py.ltb x y = false <-> y <= x.
Proof.
  rewrite <- not_true_iff_false, ltb_spec. split; intro H.
  - now apply Qnot_lt_le.
  - now apply Qle_not_lt.
Qed.

Lemma leb_spec (x y : Q) : Py.leb x y = true <-> x <= y.
Proof.
  unfold Py.leb. rewrite Qle_alt.
  destruct (x ?= y); split; congruence.
Qed.

Lemma leb_false (x y : Q) : Py.leb x y = false <-> y < x.
Proof.
  rewrite <- not_true_iff_false, leb_spec. split; intro H.
  - now apply Qnot_le_lt.
  - now apply Qlt_not_le.
Qed.

Lemma eqb_spec (x y : Q) : Py.eqb x y = true <-> x == y.
Proof.
  unfold Py.eqb. rewrite Qeq_alt.
  destruct (x ?= y); split; congruence.
Qed.

Lemma max_cases (a b : Q) :
  (a < b /\ Py.max a b == b) \/ (b <= a /\ Py.max a b == a).
Proof. exact (Q.max_spec a b). Qed.

Lemma min_cases (a b : Q) :
  (a < b /\ Py.min a b == a) \/ (b <= a /\ Py.min a b == b).
Proof. exact (Q.min_spec a b). Qed.

(** [round] lands on the floor or just above it. *)
Lemma round_floor (x : Q) :
  Py.round x = Qfloor x \/
  (Py.round x = (Qfloor x + 1)%Z /\ inject_Z (Qfloor x) + (1 # 2) <= x).
Proof.
  unfold Py.round.
  destruct (x - inject_Z (Qfloor x) ?= 1 # 2) eqn:E.
  - apply Qeq_alt in E. destruct (Z.even (Qfloor x)); [now left|].
    right. split; [reflexivity|]. lra.
  - now left.
  - apply Qgt_alt in E. right. split; [reflexivity|]. lra.
Qed.

Lemma round_Z (z : Z) : Py.round (inject_Z z) = z.
Proof.
  unfold Py.round. rewrite Qfloor_Z.
  replace (inject_Z z - inject_Z z ?= 1 # 2) with Lt; [reflexivity|].
  symmetry. rewrite <- Qlt_alt. lra.
Qed.

Lemma round_comp (x y : Q) : x == y -> Py.round x = Py.round y.
Proof.
  intro H. unfold Py.round. rewrite (Qfloor_comp x y H).
  now rewrite H.
Qed.

(** A value between two integers rounds to an integer between them. *)
Lemma round_between (lo hi : Z) (x : Q) :
  inject_Z lo <= x -> x <= inject_Z hi -> (lo <= Py.round x <= hi)%Z.
Proof.
  intros Hlo Hhi.
  pose proof (Qfloor_resp_le _ _ Hlo) as Flo. rewrite Qfloor_Z in Flo.
  pose proof (Qfloor_resp_le _ _ Hhi) as Fhi. rewrite Qfloor_Z in Fhi.
  destruct (round_floor x) as [-> | [-> Hhalf]]; [lia|].
  split; [lia|].
  destruct (Z.eq_dec (Qfloor x) hi) as [E | N]; [|lia].
  exfalso. rewrite E in Hhalf. lra.
Qed.




Lemma inject_Z_sub (x y : Z) : inject_Z (x - y) = inject_Z x - inject_Z y.
Proof.
  unfold Z.sub. rewrite inject_Z_plus, inject_Z_opp. reflexivity.
Qed.

End PyFacts.

(* ================================================================== *)
(** ** Facts about the engine's parts *)
(* ================================================================== *)

Section EngineFacts.


(** Clamping, read as a case distinction. *)
Lemma clamp_width_cases (w : Q) :
  clamp_width w = if Py.ltb w 1 then 1 else w.
Proof.
  unfold clamp_width, Py.max, Qmax, GenericMinMax.gmax, Py.ltb.
  now destruct (w ?= 1).
Qed.

Lemma clamp_height_cases (h : Q) :
  clamp_height h = if Py.ltb h 1 then 1 else h.
Proof. exact (clamp_width_cases h). Qed.

Lemma clamp_doors_cases (d : Z) :
  clamp_doors d = if (d <? 1)%Z then 1%Z else d.
Proof.
  unfold clamp_doors. destruct (Z.ltb_spec d 1); lia.
Qed.

Lemma clamp_width_ge_1 (w : Q) : 1 <= clamp_width w.
Proof.
  unfold clamp_width. destruct (max_cases w 1) as [[? ->] | [? ->]]; lra.
Qed.

(** The door width of the fixed system is one of the three options. *)
Lemma fixed_door_width_options (row : Row) :
  exists k : Z,
    In k FIXED_DOOR_WIDTH_OPTIONS /\ fixed_door_width row == inject_Z k.
Proof.
  unfold fixed_door_width.
  destruct (Py.contains FIXED_DOOR_WIDTH_OPTIONS
              (Py.get (Fixed_Door_Width_mm row) 762)) eqn:E; simpl.
  - unfold Py.contains in E. apply existsb_exists in E.
    destruct E as [k [Hin Hk]]. exists k. split; [exact Hin|].
    now apply eqb_spec.
  - exists 762%Z. split; [simpl; tauto | reflexivity].
Qed.

(** The table of overlap tolerances, entry by entry. *)
Lemma fixed_tol_cases (doors : Z) :
  fixed_tol doors = if (doors =? 2)%Z then 75%Z else 150%Z.
Proof.
  destruct (Z.eqb_spec doors 2) as [-> | N]; [reflexivity|].
  unfold fixed_tol, OVERLAP_TOLERANCES, DEFAULT_FIXED_OVERLAP_TOLERANCE.
  cbv [Py.dict_get].
  destruct (Z.eqb_spec 2 doors); [congruence|].
  destruct (3 =? doors)%Z, (4 =? doors)%Z; reflexivity.
Qed.



Lemma calculate_for_row_fixed (w h : Q) (d : Z) tl fw :
  let row := mkRow (Some w) (Some h) (Some d) (Some FIXED_SYSTEM) tl fw in
  calculate_for_row row =
  Returned (calculate_fixed (clamp_width w) (clamp_height h) (clamp_doors d) row).
Proof. reflexivity. Qed.

Lemma calculate_for_row_made_to_measure (w h : Q) (d : Z) ds tl fw :
  String.eqb (Py.get ds MADE_TO_MEASURE) FIXED_SYSTEM = false ->
  let row := mkRow (Some w) (Some h) (Some d) ds tl fw in
  calculate_for_row row =
  Returned (calculate_made_to_measure
              (clamp_width w) (clamp_height h) (clamp_doors d) row).
Proof.
  intros H row. unfold calculate_for_row. simpl. now rewrite H.
Qed.

End EngineFacts.

(* ================================================================== *)
(** ** Properties of the specification *)
(* ================================================================== *)

(** C6 (scenario B).  For width 2200, height 2600, three doors, the fixed
    2223mm system and a fixed door width of 762, whatever the top liner
    column holds, the engine returns door height 2223, dropdown 287, side
    liner thickness 32.0, build-out 14.0 per side, net width 2136, door span
    2286, overlap tolerance 150, span difference 0.0, the status "OK" and the
    OK issue flag. *)
Theorem scenario_B_fixed_result (tl : option string) :
  exists r,
    calculate_for_row
      (mkRow (Some 2200) (Some 2600) (Some 3%Z) (Some FIXED_SYSTEM) tl (Some 762))
    = Returned r
    /\ Door_Height_mm r = 2223%Z
    /\ Dropdown_Height_mm r = 287%Z
    /\ Side_Liner_Thickness_mm r == 32
    /\ Required_Buildout_Per_Side_mm r == 14
    /\ Net_Width_mm r = 2136%Z
    /\ Door_Span_mm r = 2286%Z
    /\ Overlap_Tolerance_mm r = 150%Z
    /\ Span_Diff_mm r == 0
    /\ Height_Status r = "OK"%string
    /\ Issue r = ISSUE_OK.
Proof.
  eexists. split; [reflexivity|].
  repeat split; vm_compute; reflexivity.
Qed.


(** C3, as the specification words it, fails on a very wide opening, where
    binary64 rounds the widths.  For a width of 1e17 with three fixed doors
    of 762 the raw side liner thickness is 49999999999998928, not negative
    and not clamped, because [width - door_span + tolerance] is rounded to a
    multiple of 16; the code then finds the net width 2144 and the span
    difference -8.0, which it reports as -8.0, not 0. *)
Lemma huge_width_span_diff_is_not_zero :
  (0 <=? B64.side_thk_raw (B64.fixed_widths 1e17 3 762))%float = true
  /\ B64.side_thk (B64.fixed_widths 1e17 3 762)
     = B64.side_thk_raw (B64.fixed_widths 1e17 3 762)
  /\ B64.side_thk_raw (B64.fixed_widths 1e17 3 762) = 49999999999998928%float
  /\ B64.int_round (B64.net_width (B64.fixed_widths 1e17 3 762))
     = Returned 2144%Z
  /\ B64.span_diff (B64.fixed_widths 1e17 3 762) = (-8)%float
  /\ match B64.round1_decimal (B64.span_diff (B64.fixed_widths 1e17 3 762)) with
     | Some reported => reported == -8 /\ ~ reported == 0
     | None => False
     end.
Proof.
  split; [vm_compute; reflexivity|]. split; [vm_compute; reflexivity|].
  split; [vm_compute; reflexivity|]. split; [vm_compute; reflexivity|].
  split; [vm_compute; reflexivity|].
  vm_compute. split; [reflexivity | discriminate].
Qed.



(** C1, as the specification words it, fails: a width of 200 (below the
    documented minimum of 300) is not raised to 300.  The engine computes
    with 200, so the made-to-measure net width is 164 = 200 - 36, where a
    width of 300 gives 264. *)
Lemma width_200_is_not_raised_to_300 :
  200 < 300
  /\ clamp_width 200 == 200
  /\ ~ clamp_width 200 == 300
  /\ (exists r,
        calculate_for_row
          (mkRow (Some 200) (Some 2600) (Some 3%Z) (Some MADE_TO_MEASURE)
                 (Some "108mm Dropdown"%string) None) = Returned r
        /\ Net_Width_mm r = 164%Z)
  /\ (exists r,
        calculate_for_row
          (mkRow (Some 300) (Some 2600) (Some 3%Z) (Some MADE_TO_MEASURE)
                 (Some "108mm Dropdown"%string) None) = Returned r
        /\ Net_Width_mm r = 264%Z).
Proof.
  split; [reflexivity|]. split; [reflexivity|]. split; [discriminate|].
  split; eexists; (split; [reflexivity | vm_compute; reflexivity]).
Qed.

(** C1, amended.  For every row that has its three numeric columns, the
    engine raises nothing and returns a result.  A width or a height below 1
    is replaced by 1 and a door count below 1 by 1; any other value,
    including one between 1 and the documented minimum of 300, is used as it
    is: the result is what the selected strategy computes from exactly these
    values, it reports the doors and the height so obtained, and it is the
    result for the row with the clamped values in place. *)
Theorem under_range_values_clamped_to_one
  (w h : Q) (d : Z) (ds tl : option string) (fw : option Q) :
  let width := if Py.ltb w 1 then 1 else w in
  let height := if Py.ltb h 1 then 1 else h in
  let doors := if (d <? 1)%Z then 1%Z else d in
  let row := mkRow (Some w) (Some h) (Some d) ds tl fw in
  clamp_width w = width
  /\ clamp_height h = height
  /\ clamp_doors d = doors
  /\ exists r,
       calculate_for_row row = Returned r
       /\ r = (if String.eqb (Py.get ds MADE_TO_MEASURE) FIXED_SYSTEM
               then calculate_fixed width height doors row
               else calculate_made_to_measure width height doors row)
       /\ Doors_Used r = doors
       /\ Side_Liner_Length_mm r = Py.round height
       /\ calculate_for_row
            (mkRow (Some width) (Some height) (Some doors) ds tl fw)
          = Returned r.
Proof.
  intros width height doors row.
  assert (clamp_width w = width) as Hw by apply clamp_width_cases.
  assert (clamp_height h = height) as Hh by apply clamp_height_cases.
  assert (clamp_doors d = doors) as Hd by apply clamp_doors_cases.
  split; [exact Hw|]. split; [exact Hh|]. split; [exact Hd|].
  assert (clamp_width width = width) as Ew.
  { rewrite <- Hw, (clamp_width_cases (clamp_width w)).
    pose proof (clamp_width_ge_1 w) as G. apply ltb_false in G. now rewrite G. }
  assert (clamp_height height = height) as Eh.
  { rewrite <- Hh, (clamp_height_cases (clamp_height h)).
    pose proof (clamp_width_ge_1 h) as G. apply ltb_false in G.
    unfold clamp_height, clamp_width in *. now rewrite G. }
  assert (clamp_doors doors = doors) as Ed
    by (rewrite <- Hd; unfold clamp_doors; lia).
  unfold calculate_for_row, row.
  cbn [Py.getitem Py.bind Width_mm Height_mm Doors Door_System].
  rewrite Hw, Hh, Hd, Ew, Eh, Ed.
  destruct (String.eqb (Py.get ds MADE_TO_MEASURE) FIXED_SYSTEM).
  - eexists. split; [reflexivity|]. split; [reflexivity|].
    split; [reflexivity|]. split; [reflexivity|].
    unfold calculate_fixed, fixed_door_width. reflexivity.
  - eexists. split; [reflexivity|]. split; [reflexivity|].
    split; [reflexivity|]. split; [reflexivity|].
    unfold calculate_made_to_measure. reflexivity.
Qed.

(** C2, as the specification words it, fails: a door system that is neither
    of the two known ones raises no error.  The engine returns the
    made-to-measure result, the same one as for scenario A. *)
Lemma unknown_door_system_returns_a_result :
  existsb (String.eqb "Hinged doors") DOOR_SYSTEM_OPTIONS = false
  /\ calculate_for_row
       (mkRow (Some 2200) (Some 2600) (Some 3%Z) (Some "Hinged doors"%string)
              (Some "108mm Dropdown"%string) (Some 762))
     = calculate_for_row scenario_A
  /\ exists r,
       calculate_for_row
         (mkRow (Some 2200) (Some 2600) (Some 3%Z) (Some "Hinged doors"%string)
                (Some "108mm Dropdown"%string) (Some 762)) = Returned r
       /\ Door_Height_mm r = 2402%Z
       /\ Door_Width_mm r = 738%Z
       /\ Height_Status r = "OK"%string.
Proof.
  split; [reflexivity|]. split; [reflexivity|].
  eexists. split; [reflexivity|]. repeat split; vm_compute; reflexivity.
Qed.

(** C2, amended.  For every row whose door system is anything but
    "Fixed 2223mm doors" (the made-to-measure value, an absent column or an
    unknown value), the engine raises no configuration error: it applies the
    made-to-measure strategy and returns the result it returns for
    "Made to measure doors". *)
Theorem other_door_systems_are_made_to_measure
  (w h : Q) (d : Z) (ds tl : option string) (fw : option Q) :
  ds <> Some FIXED_SYSTEM ->
  exists r,
    calculate_for_row (mkRow (Some w) (Some h) (Some d) ds tl fw)
    = Returned r
    /\ calculate_for_row
         (mkRow (Some w) (Some h) (Some d) (Some MADE_TO_MEASURE) tl fw)
       = Returned r
    /\ r = calculate_made_to_measure (clamp_width w) (clamp_height h)
             (clamp_doors d)
             (mkRow (Some w) (Some h) (Some d) ds tl fw).
Proof.
  intro Hds.
  assert (String.eqb (Py.get ds MADE_TO_MEASURE) FIXED_SYSTEM = false) as Hs.
  { destruct ds as [s|]; [|reflexivity].
    apply String.eqb_neq. intro E. apply Hds. f_equal. exact E. }
  eexists. split; [|split; [|reflexivity]].
  - apply calculate_for_row_made_to_measure. exact Hs.
  - reflexivity.
Qed.

Lemma other_door_systems_are_made_to_measure_witness :
  (exists r,
     calculate_for_row
       (mkRow (Some 2200) (Some 2600) (Some 3%Z) (Some "Hinged doors"%string)
              (Some "108mm Dropdown"%string) (Some 762)) = Returned r
     /\ calculate_for_row scenario_A = Returned r)
  /\ (exists r,
        calculate_for_row
          (mkRow (Some 2200) (Some 2600) (Some 3%Z) None
                 (Some "108mm Dropdown"%string) (Some 762)) = Returned r
        /\ calculate_for_row scenario_A = Returned r).
Proof.
  split.
  - destruct (other_door_systems_are_made_to_measure
                2200 2600 3 (Some "Hinged doors"%string)
                (Some "108mm Dropdown"%string) (Some 762)) as [r [H1 [H2 _]]].
    + discriminate.
    + exists r. split; [exact H1 | exact H2].
  - destruct (other_door_systems_are_made_to_measure
                2200 2600 3 None (Some "108mm Dropdown"%string) (Some 762))
      as [r [H1 [H2 _]]].
    + discriminate.
    + exists r. split; [exact H1 | exact H2].
Defined.

(** *** Reported net width against reported side liner thickness *)






(** *** Made to measure: ranges of the dropdown and of the door height *)

Lemma top_liner_option_values (option : string) :
  In (Py.dict_get String.eqb TOP_LINER_OPTIONS option 108%Z)
     [108; 90; 50; 0]%Z.
Proof.
  unfold TOP_LINER_OPTIONS. cbv [Py.dict_get].
  destruct (String.eqb "108mm Dropdown" option); [simpl; tauto|].
  destruct (String.eqb "90mm Dropdown" option); [simpl; tauto|].
  destruct (String.eqb "50mm Dropdown" option); [simpl; tauto|].
  destruct (String.eqb "No dropdown (0mm)" option); simpl; tauto.
Qed.

Lemma plan_selected_bounds (option : string) (base : Q) :
  let plan := plan_selected option base in
  0 <= dropdown_h plan <= 400 /\ 0 <= final_door_h plan <= 2431.
Proof.
  unfold plan_selected, MAX_DROPDOWN_LIMIT, MAX_DOOR_HEIGHT.
  set (sel := Py.dict_get String.eqb TOP_LINER_OPTIONS option 108%Z).
  assert (0 <= inject_Z sel <= 108) as Hsel.
  { pose proof (top_liner_option_values option) as Hin. fold sel in Hin.
    simpl in Hin.
    destruct Hin as [<- | [<- | [<- | [<- | []]]]]; literals; lra. }
  literals.
  set (dd := Py.min (inject_Z sel) 400).
  assert (0 <= dd <= 400) as Hdd
    by (unfold dd; destruct (min_cases (inject_Z sel) 400) as [[? ->] | [? ->]]; lra).
  set (raw := Py.max (base - dd) 0).
  assert (0 <= raw) as Hraw
    by (unfold raw; destruct (max_cases (base - dd) 0) as [[? ->] | [? ->]]; lra).
  destruct (Py.leb raw 2431) eqn:E; cbn [dropdown_h final_door_h].
  - apply leb_spec in E. lra.
  - lra.
Qed.

Lemma bespoke_dropdown_bounds (base : Q) :
  0 <= bespoke_dropdown_h base <= 400.
Proof.
  unfold bespoke_dropdown_h, bespoke_ideal_dropdown, MAX_DROPDOWN_LIMIT.
  literals.
  set (ideal := Py.max _ 0).
  assert (0 <= ideal) as Hideal
    by (unfold ideal; match goal with
                      | |- 0 <= Py.max ?a 0 =>
                          destruct (max_cases a 0) as [[? ->] | [? ->]]; lra
                      end).
  destruct (min_cases ideal 400) as [[? ->] | [? ->]]; lra.
Qed.

Lemma bespoke_final_door_h_bounds (base : Q) :
  0 <= bespoke_final_door_h base <= 2431.
Proof.
  unfold bespoke_final_door_h, MAX_DOOR_HEIGHT. literals.
  set (raw := Py.max _ 0).
  assert (0 <= raw) as Hraw
    by (unfold raw; match goal with
                    | |- 0 <= Py.max ?a 0 =>
                        destruct (max_cases a 0) as [[? ->] | [? ->]]; lra
                    end).
  destruct (min_cases raw 2431) as [[? ->] | [? ->]]; lra.
Qed.

(** C5.  In the made-to-measure strategy, with a selected dropdown as with
    the bespoke one, the engine returns for every row a dropdown height
    within [0, 400] and a door height within [0, 2431]. *)
Theorem made_to_measure_ranges
  (w h : Q) (d : Z) (ds tl : option string) (fw : option Q) :
  String.eqb (Py.get ds MADE_TO_MEASURE) FIXED_SYSTEM = false ->
  exists r,
    calculate_for_row (mkRow (Some w) (Some h) (Some d) ds tl fw) = Returned r
    /\ (0 <= Dropdown_Height_mm r <= 400)%Z
    /\ (0 <= Door_Height_mm r <= 2431)%Z.
Proof.
  intro Hds. eexists.
  split; [apply calculate_for_row_made_to_measure; exact Hds|].
  cbn [calculate_made_to_measure Dropdown_Height_mm Door_Height_mm
       Top_Liner_Option].
  set (base := base_usable_height (clamp_height h)).
  destruct (String.eqb (Py.get tl "108mm Dropdown"%string) BESPOKE_DROPDOWN_LABEL).
  - cbn [plan_bespoke dropdown_h final_door_h].
    pose proof (bespoke_dropdown_bounds base) as [D0 D1].
    pose proof (bespoke_final_door_h_bounds base) as [F0 F1].
    split; apply round_between; literals; assumption.
  - pose proof (plan_selected_bounds (Py.get tl "108mm Dropdown"%string) base)
      as [[D0 D1] [F0 F1]].
    split; apply round_between; literals; assumption.
Qed.

Lemma made_to_measure_ranges_witness :
  exists r,
    calculate_for_row scenario_D = Returned r
    /\ (0 <= Dropdown_Height_mm r <= 400)%Z
    /\ (0 <= Door_Height_mm r <= 2431)%Z.
Proof.
  apply (made_to_measure_ranges
           2200 2600 2 (Some MADE_TO_MEASURE) (Some BESPOKE_DROPDOWN_LABEL)
           (Some 762)).
  reflexivity.
Defined.

(** *** The issue flag *)

(** In the fixed system the flag is set by comparing the status with "OK";
    on the three statuses of that branch this is the same as asking whether
    the status begins with "OK". *)
Lemma fixed_status_is_ok_or_not_prefixed (height : Q) :
  String.eqb (snd (fixed_dropdown height)) "OK"
  = Py.startswith (snd (fixed_dropdown height)) "OK".
Proof.
  unfold fixed_dropdown.
  destruct (Py.ltb (fixed_dropdown_h_raw height) 0); [reflexivity|].
  destruct (Py.ltb MAX_DROPDOWN_LIMIT (fixed_dropdown_h_raw height));
    reflexivity.
Qed.

Lemma issue_flag_of_bool (b : bool) :
  (if b then ISSUE_OK else ISSUE_CHECK) = ISSUE_OK <-> b = true.
Proof.
  destruct b; split; try reflexivity; discriminate.
Qed.

(** C7.  For every row, in both strategies, the issue flag returned is the
    OK flag if and only if the height status returned begins with "OK", and
    it is the CHECK flag otherwise. *)
Theorem issue_ok_iff_status_starts_with_ok
  (w h : Q) (d : Z) (ds tl : option string) (fw : option Q) :
  exists r,
    calculate_for_row (mkRow (Some w) (Some h) (Some d) ds tl fw) = Returned r
    /\ (Issue r = ISSUE_OK <-> Py.startswith (Height_Status r) "OK" = true)
    /\ Issue r = (if Py.startswith (Height_Status r) "OK" then ISSUE_OK
                  else ISSUE_CHECK).
Proof.
  unfold calculate_for_row.
  cbn [Py.getitem Py.bind Width_mm Height_mm Doors Door_System].
  destruct (String.eqb (Py.get ds MADE_TO_MEASURE) FIXED_SYSTEM).
  - eexists. split; [reflexivity|].
    cbn [calculate_fixed Issue Height_Status].
    rewrite fixed_status_is_ok_or_not_prefixed.
    split; [apply issue_flag_of_bool | reflexivity].
  - eexists. split; [reflexivity|].
    cbn [calculate_made_to_measure Issue Height_Status].
    split; [apply issue_flag_of_bool | reflexivity].
Qed.

(** *** The bespoke status *)

Lemma bespoke_arm_is_not_check (base : Q) :
  bespoke_arm_of (bespoke_ideal_dropdown base) (bespoke_final_door_h base)
  = if Py.leb (bespoke_ideal_dropdown base) MAX_DROPDOWN_LIMIT
    then BespokeOk else BespokeTooTall.
Proof.
  unfold bespoke_arm_of.
  pose proof (bespoke_final_door_h_bounds base) as [_ F].
  apply leb_spec in F. change (inject_Z MAX_DOOR_HEIGHT) with 2431.
  rewrite F, andb_true_r.
  destruct (Py.leb (bespoke_ideal_dropdown base) MAX_DROPDOWN_LIMIT) eqn:E;
    [reflexivity|].
  apply leb_false, ltb_spec in E. now rewrite E.
Qed.

(** C9, as the specification words it, fails on a height that is not a
    number.  A blank Height_mm cell reaches the engine as NaN; [max], [min]
    and the subtractions carry it to the ideal dropdown and the final door
    height, both comparisons of the first test and the comparison of the
    second are false, and the last arm of the status choice is executed,
    before [int(round(dropdown_h))] raises ValueError. *)
Lemma nan_height_takes_the_check_arm :
  B64.arm (B64.bespoke nan) = BespokeCheck
  /\ (B64.ideal_dropdown (B64.bespoke nan) <=? B64.of_int MAX_DROPDOWN_LIMIT)%float
     = false
  /\ (B64.of_int MAX_DROPDOWN_LIMIT <? B64.ideal_dropdown (B64.bespoke nan))%float
     = false
  /\ (B64.final_door_h (B64.bespoke nan) <=? B64.of_int MAX_DOOR_HEIGHT)%float
     = false
  /\ B64.recommended_dropdown (B64.bespoke nan)
     = Raised (ValueError "cannot convert float NaN to integer").
Proof.
  repeat split; vm_compute; reflexivity.
Qed.

(** On heights that are numbers, infinite ones included, the binary64 run
    takes one of the first two arms. *)
Lemma number_heights_in_binary64 :
  forallb (fun height_cell =>
             match B64.arm (B64.bespoke height_cell) with
             | BespokeCheck => false
             | _ => true
             end)
          [neg_infinity; (-5)%float; 0%float; 1%float; 89.5%float; 90%float;
           2521%float; 2921%float; 2921.5%float; 3000%float; 1e17%float;
           0x1p+1023%float; infinity]
  = true.
Proof. vm_compute. reflexivity. Qed.



(** *** The door leaves of the diagram *)

Lemma rendered_doors_app (f g : list artist) :
  rendered_doors (f ++ g) = (rendered_doors f ++ rendered_doors g)%list.
Proof. unfold rendered_doors. apply flat_map_app. Qed.

Lemma rendered_door_leaves (n : nat) (x y wd ht : Q) :
  length (rendered_doors (door_leaves n x y wd ht)) = n
  /\ Forall (fun r => rect_width r = wd)
            (rendered_doors (door_leaves n x y wd ht))
  /\ total_width (rendered_doors (door_leaves n x y wd ht))
     == inject_Z (Z.of_nat n) * wd.
Proof.
  revert x. induction n as [|n IH]; intro x.
  - split; [reflexivity|]. split; [constructor|].
    change (0 == 0 * wd). ring.
  - destruct (IH (x + wd)) as [Hlen [Hall Hsum]].
    change (rendered_doors (door_leaves (S n) x y wd ht))
      with (mkRectangle x y wd ht false true
            :: rendered_doors (door_leaves n (x + wd) y wd ht)).
    split; [simpl; now rewrite Hlen|].
    split; [constructor; [reflexivity | exact Hall]|].
    cbn [total_width fold_right rect_width]. fold (total_width).
    change (fold_right (fun r acc => rect_width r + acc) 0
              (rendered_doors (door_leaves n (x + wd) y wd ht)))
      with (total_width (rendered_doors (door_leaves n (x + wd) y wd ht))).
    rewrite Hsum, Nat2Z.inj_succ. unfold Z.succ. rewrite inject_Z_plus.
    literals. ring.
Qed.





(* ================================================================== *)
(** ** Further properties of the code *)
(* ================================================================== *)

(** *** More on the primitives *)




(** Two comparisons that hold together give the same boolean. *)
Lemma ltb_ext (a b c d : Q) : (a < b <-> c < d) -> Py.ltb a b = Py.ltb c d.
Proof.
  intro H. destruct (Py.ltb c d) eqn:E.
  - apply ltb_spec. apply H. now apply ltb_spec.
  - apply ltb_false. apply ltb_false in E.
    apply Qnot_lt_le. intro L. apply H in L. now apply Qle_not_lt in E.
Qed.


(** *** Missing columns *)


(** *** The fixed system: heights *)

Lemma fixed_dropdown_cases (height : Q) :
  fixed_dropdown height =
  if Py.ltb height 2313 then (0, FIXED_TOO_SMALL)
  else if Py.ltb 2713 height then
         (inject_Z MAX_DROPDOWN_LIMIT,
          fixed_exceeds (fixed_dropdown_h_raw height))
       else (fixed_dropdown_h_raw height, "OK"%string).
Proof.
  unfold fixed_dropdown.
  rewrite (ltb_ext (fixed_dropdown_h_raw height) 0 height 2313).
  - rewrite (ltb_ext (inject_Z MAX_DROPDOWN_LIMIT)
                     (fixed_dropdown_h_raw height) 2713 height).
    + reflexivity.
    + unfold fixed_dropdown_h_raw, MAX_DROPDOWN_LIMIT, BOTTOM_LINER_THICKNESS,
        TRACKSET_TOLERANCE, FIXED_DOOR_HEIGHT. literals. split; intro; lra.
  - unfold fixed_dropdown_h_raw, BOTTOM_LINER_THICKNESS,
      TRACKSET_TOLERANCE, FIXED_DOOR_HEIGHT. literals. split; intro; lra.
Qed.

(** X2.  In the fixed system the height decides the status alone.  With the
    height (clamped to at least 1) below 2313 = 2223 + 36 + 54 the dropdown is 0
    and the status is the too-small message; above 2713 = 2313 + 400 the
    dropdown is 400 and the status is the exceeds message; in between the
    dropdown is the rounded rest [height - 2313] and the status is "OK".  The
    dropdown reported is always within [0, 400], and the issue flag is OK
    exactly for heights from 2313 to 2713. *)
Theorem fixed_height_classification
  (w h : Q) (d : Z) (tl : option string) (fw : option Q) :
  let height := clamp_height h in
  exists r,
    calculate_for_row
      (mkRow (Some w) (Some h) (Some d) (Some FIXED_SYSTEM) tl fw) = Returned r
    /\ (0 <= Dropdown_Height_mm r <= 400)%Z
    /\ Dropdown_Height_mm r
       = (if Py.ltb height 2313 then 0%Z
          else if Py.ltb 2713 height then 400%Z
               else Py.round (height - 2313))
    /\ Height_Status r
       = (if Py.ltb height 2313 then FIXED_TOO_SMALL
          else if Py.ltb 2713 height
               then fixed_exceeds (fixed_dropdown_h_raw height)
               else "OK"%string)
    /\ (Issue r = ISSUE_OK <-> 2313 <= height <= 2713).
Proof.
  intro height. eexists. split; [apply calculate_for_row_fixed|].
  cbn [calculate_fixed Dropdown_Height_mm Height_Status Issue].
  fold height. rewrite (fixed_dropdown_cases height).
  destruct (Py.ltb height 2313) eqn:Lo; cbn [fst snd].
  - apply ltb_spec in Lo.
    split; [vm_compute; split; discriminate|]. split; [reflexivity|].
    split; [reflexivity|].
    split; [discriminate | intros [L _]; lra].
  - apply ltb_false in Lo.
    destruct (Py.ltb 2713 height) eqn:Hi; cbn [fst snd].
    + apply ltb_spec in Hi.
      split; [vm_compute; split; discriminate|]. split; [reflexivity|].
      split; [reflexivity|].
      split; [discriminate | intros [_ L]; lra].
    + apply ltb_false in Hi.
      assert (fixed_dropdown_h_raw height == height - 2313) as Hraw.
      { unfold fixed_dropdown_h_raw, BOTTOM_LINER_THICKNESS,
          TRACKSET_TOLERANCE, FIXED_DOOR_HEIGHT. literals. ring. }
      rewrite (round_comp _ _ Hraw).
      split; [apply round_between; literals; lra|]. split; [reflexivity|].
      split; [reflexivity|].
      split; [intros _; split; assumption | reflexivity].
Qed.

(** X3.  In the fixed system, for a whole height from 2313 to 2713, the
    parts add up to the opening: door height + dropdown + 36 (bottom liner)
    + 54 (trackset) = height, with the status "OK" and the OK flag. *)
Theorem fixed_height_parts_add_up
  (w : Q) (hz d : Z) (tl : option string) (fw : option Q) :
  (2313 <= hz <= 2713)%Z ->
  exists r,
    calculate_for_row
      (mkRow (Some w) (Some (inject_Z hz)) (Some d) (Some FIXED_SYSTEM) tl fw)
    = Returned r
    /\ (Door_Height_mm r + Dropdown_Height_mm r
        + BOTTOM_LINER_THICKNESS + TRACKSET_TOLERANCE = hz)%Z
    /\ Height_Status r = "OK"%string
    /\ Issue r = ISSUE_OK.
Proof.
  intros [Lo Hi]. eexists. split; [apply calculate_for_row_fixed|].
  cbn [calculate_fixed Door_Height_mm Dropdown_Height_mm Height_Status Issue].
  assert (clamp_height (inject_Z hz) = inject_Z hz) as ->.
  { rewrite clamp_height_cases.
    assert (1 <= inject_Z hz) as G
      by (change 1 with (inject_Z 1); rewrite <- Zle_Qle; lia).
    apply ltb_false in G. now rewrite G. }
  rewrite (fixed_dropdown_cases (inject_Z hz)).
  assert (Py.ltb (inject_Z hz) 2313 = false) as ->
    by (apply ltb_false; change 2313 with (inject_Z 2313);
        rewrite <- Zle_Qle; lia).
  assert (Py.ltb 2713 (inject_Z hz) = false) as ->
    by (apply ltb_false; change 2713 with (inject_Z 2713);
        rewrite <- Zle_Qle; lia).
  cbn [fst snd]. split; [|split; reflexivity].
  rewrite (round_comp (fixed_dropdown_h_raw (inject_Z hz))
                      (inject_Z (hz - 2313))).
  - rewrite !round_Z.
    unfold FIXED_DOOR_HEIGHT, BOTTOM_LINER_THICKNESS, TRACKSET_TOLERANCE. lia.
  - unfold fixed_dropdown_h_raw, BOTTOM_LINER_THICKNESS,
      TRACKSET_TOLERANCE, FIXED_DOOR_HEIGHT.
    rewrite inject_Z_sub. literals. ring.
Qed.

Lemma fixed_height_parts_add_up_witness :
  exists r,
    calculate_for_row scenario_B = Returned r
    /\ (Door_Height_mm r + Dropdown_Height_mm r
        + BOTTOM_LINER_THICKNESS + TRACKSET_TOLERANCE = 2600)%Z.
Proof.
  destruct (fixed_height_parts_add_up
              2200 2600 3 (Some "108mm Dropdown"%string) (Some 762))
    as [r [Hr [Hsum _]]].
  - lia.
  - exists r. split; [exact Hr | exact Hsum].
Defined.



(** *** The fixed system: widths *)

Lemma clamp_whole (z : Z) : (1 <= z)%Z -> Py.max (inject_Z z) 1 = inject_Z z.
Proof.
  intro H. change (Py.max (inject_Z z) 1) with (clamp_width (inject_Z z)).
  rewrite clamp_width_cases.
  assert (1 <= inject_Z z) as G
    by (change 1 with (inject_Z 1); now rewrite <- Zle_Qle).
  apply ltb_false in G. now rewrite G.
Qed.




(** X5.  In the fixed system the door width reported is always one of 610,
    762 and 914: the selected width when it is one of them, and 762 when the
    column is absent or holds anything else.  The door span reported is the
    number of doors used times that width, exactly. *)
Theorem fixed_door_width_is_an_option
  (w h : Q) (d : Z) (tl : option string) (fw : option Q) :
  exists r,
    calculate_for_row
      (mkRow (Some w) (Some h) (Some d) (Some FIXED_SYSTEM) tl fw) = Returned r
    /\ In (Door_Width_mm r) FIXED_DOOR_WIDTH_OPTIONS
    /\ match fw with
       | None => Door_Width_mm r = 762%Z
       | Some q =>
           if Py.contains FIXED_DOOR_WIDTH_OPTIONS q
           then inject_Z (Door_Width_mm r) == q
           else Door_Width_mm r = 762%Z
       end
    /\ Doors_Used r = clamp_doors d
    /\ Door_Span_mm r = (Doors_Used r * Door_Width_mm r)%Z.
Proof.
  eexists. split; [apply calculate_for_row_fixed|].
  cbn [calculate_fixed Door_Width_mm Doors_Used Door_Span_mm].
  set (row := mkRow (Some w) (Some h) (Some d) (Some FIXED_SYSTEM) tl fw).
  destruct (fixed_door_width_options row) as [k [Hin Hk]].
  rewrite (round_comp _ _ Hk), round_Z.
  split; [exact Hin|]. split; [|split; [reflexivity|]].
  - unfold fixed_door_width, row in Hk. cbn [Fixed_Door_Width_mm Py.get] in Hk.
    destruct fw as [q|]; cbn [Py.get] in Hk.
    + destruct (Py.contains FIXED_DOOR_WIDTH_OPTIONS q); cbn [negb] in Hk.
      * symmetry. exact Hk.
      * change 762 with (inject_Z 762) in Hk. apply eq_sym, inject_Z_injective.
        exact Hk.
    + change (Py.contains FIXED_DOOR_WIDTH_OPTIONS 762) with true in Hk.
      cbn [negb] in Hk. change 762 with (inject_Z 762) in Hk.
      apply eq_sym, inject_Z_injective. exact Hk.
  - unfold fixed_door_span.
    rewrite (round_comp _ (inject_Z (clamp_doors d * k))).
    + apply round_Z.
    + rewrite Hk, inject_Z_mult. reflexivity.
Qed.

(** X6.  The overlap tolerance reported by the fixed system is 75 for two
    doors and 150 for every other count, the counts below 2 and above 4 that
    the table does not list included. *)
Theorem fixed_overlap_tolerance_table
  (w h : Q) (d : Z) (tl : option string) (fw : option Q) :
  exists r,
    calculate_for_row
      (mkRow (Some w) (Some h) (Some d) (Some FIXED_SYSTEM) tl fw) = Returned r
    /\ Overlap_Tolerance_mm r
       = (if (clamp_doors d =? 2)%Z then 75%Z else 150%Z).
Proof.
  eexists. split; [apply calculate_for_row_fixed|].
  cbn [calculate_fixed Overlap_Tolerance_mm].
  rewrite round_Z. apply fixed_tol_cases.
Qed.





(** *** Made to measure: widths *)

(** Abstracts every [max] and [min] of the goal, keeps what each one is
    equal to, and leaves linear arithmetic. *)
Ltac minmax :=
  repeat match goal with
         | |- context [Py.max ?a ?b] =>
             let v := fresh "v" in
             pose proof (max_cases a b); set (v := Py.max a b) in *; clearbody v
         | |- context [Py.min ?a ?b] =>
             let v := fresh "v" in
             pose proof (min_cases a b); set (v := Py.min a b) in *; clearbody v
         | H : context [Py.max ?a ?b] |- _ =>
             let v := fresh "v" in
             pose proof (max_cases a b); set (v := Py.max a b) in *; clearbody v
         | H : context [Py.min ?a ?b] |- _ =>
             let v := fresh "v" in
             pose proof (min_cases a b); set (v := Py.min a b) in *; clearbody v
         end;
  repeat match goal with
         | H : _ \/ _ |- _ => destruct H as [[? ?] | [? ?]]
         end.





(** *** Made to measure: heights *)

Lemma bespoke_ideal_dropdown_cases (base : Q) :
  (base <= 2431 /\ bespoke_ideal_dropdown base == 0)
  \/ (2431 < base /\ bespoke_ideal_dropdown base == base - 2431).
Proof.
  unfold bespoke_ideal_dropdown, MAX_DOOR_HEIGHT. literals.
  destruct (Qlt_le_dec 2431 base); [right | left]; (split; [assumption|]);
    minmax; lra.
Qed.

(** A base height that the door can fill with a dropdown of at most 400. *)
Lemma bespoke_fits (base : Q) :
  0 <= base -> base <= 2831 ->
  bespoke_dropdown_h base + bespoke_final_door_h base == base
  /\ ((base <= 2431 /\ bespoke_dropdown_h base == 0)
      \/ (2431 <= base /\ bespoke_final_door_h base == 2431)).
Proof.
  intros Lo Hi.
  destruct (bespoke_ideal_dropdown_cases base) as [[Hb Hi0] | [Hb Hi0]].
  - assert (bespoke_dropdown_h base == 0) as Hd.
    { unfold bespoke_dropdown_h, MAX_DROPDOWN_LIMIT. literals. minmax; lra. }
    split; [|left; split; assumption].
    unfold bespoke_final_door_h, MAX_DOOR_HEIGHT. literals.
    set (dd := bespoke_dropdown_h base) in *. clearbody dd. minmax; lra.
  - assert (bespoke_dropdown_h base == base - 2431) as Hd.
    { unfold bespoke_dropdown_h, MAX_DROPDOWN_LIMIT. literals. minmax; lra. }
    assert (bespoke_final_door_h base == 2431) as Hf.
    { unfold bespoke_final_door_h, MAX_DOOR_HEIGHT. literals.
      set (dd := bespoke_dropdown_h base) in *. clearbody dd. minmax; lra. }
    split; [rewrite Hd, Hf; ring | right; split; [lra | exact Hf]].
Qed.

(** A base height too tall for that. *)
Lemma bespoke_capped (base : Q) :
  2831 < base ->
  400 < bespoke_ideal_dropdown base
  /\ bespoke_dropdown_h base == 400
  /\ bespoke_final_door_h base == 2431.
Proof.
  intro Hi.
  destruct (bespoke_ideal_dropdown_cases base) as [[Hb Hi0] | [Hb Hi0]]; [lra|].
  assert (bespoke_dropdown_h base == 400) as Hd.
  { unfold bespoke_dropdown_h, MAX_DROPDOWN_LIMIT. literals. minmax; lra. }
  split; [lra|]. split; [exact Hd|].
  unfold bespoke_final_door_h, MAX_DOOR_HEIGHT. literals.
  set (dd := bespoke_dropdown_h base) in *. clearbody dd. minmax; lra.
Qed.

Lemma calculate_bespoke (w h : Q) (d : Z) ds fw :
  String.eqb (Py.get ds MADE_TO_MEASURE) FIXED_SYSTEM = false ->
  exists r,
    calculate_for_row
      (mkRow (Some w) (Some h) (Some d) ds (Some BESPOKE_DROPDOWN_LABEL) fw)
    = Returned r
    /\ Door_Height_mm r
       = Py.round (bespoke_final_door_h (base_usable_height (clamp_height h)))
    /\ Dropdown_Height_mm r
       = Py.round (bespoke_dropdown_h (base_usable_height (clamp_height h)))
    /\ Recommended_Dropdown_Height_mm r = Some (Dropdown_Height_mm r)
    /\ Height_Status r
       = bespoke_status
           (bespoke_ideal_dropdown (base_usable_height (clamp_height h)))
           (bespoke_final_door_h (base_usable_height (clamp_height h)))
    /\ Issue r = if Py.startswith (Height_Status r) "OK" then ISSUE_OK
                 else ISSUE_CHECK.
Proof.
  intro Hds. eexists.
  split; [apply calculate_for_row_made_to_measure; exact Hds|].
  cbn [calculate_made_to_measure Door_Height_mm Dropdown_Height_mm
       Recommended_Dropdown_Height_mm Height_Status Issue Top_Liner_Option
       Py.get].
  rewrite String.eqb_refl.
  cbn [plan_bespoke final_door_h dropdown_h recommended_dropdown height_status].
  repeat split; reflexivity.
Qed.

(** X10.  With the bespoke dropdown, the opening is flagged OK exactly when
    its height (clamped to at least 1) is at most 2921 = 2431 + 400 + 36 +
    54.  Above that the dropdown is 400, the door is 2431 and the flag is
    CHECK.  In either case the recommended dropdown is the dropdown
    reported. *)
Theorem bespoke_ok_up_to_2921
  (w h : Q) (d : Z) (ds : option string) (fw : option Q) :
  String.eqb (Py.get ds MADE_TO_MEASURE) FIXED_SYSTEM = false ->
  exists r,
    calculate_for_row
      (mkRow (Some w) (Some h) (Some d) ds (Some BESPOKE_DROPDOWN_LABEL) fw)
    = Returned r
    /\ Recommended_Dropdown_Height_mm r = Some (Dropdown_Height_mm r)
    /\ ((clamp_height h <= 2921 /\ Issue r = ISSUE_OK)
        \/ (2921 < clamp_height h /\ Issue r = ISSUE_CHECK
            /\ Dropdown_Height_mm r = 400%Z /\ Door_Height_mm r = 2431%Z)).
Proof.
  intro Hds.
  destruct (calculate_bespoke w h d ds fw Hds)
    as [r [Hr [Hdoor [Hdrop [Hrec [Hstatus Hissue]]]]]].
  exists r. split; [exact Hr|]. split; [exact Hrec|].
  rewrite Hissue, Hstatus, Hdoor, Hdrop. clear Hissue Hstatus Hdoor Hdrop Hrec Hr.
  set (height := clamp_height h). set (base := base_usable_height height).
  assert (base == height - 90) as Hbase
    by (unfold base, base_usable_height, BOTTOM_LINER_THICKNESS,
          TRACKSET_TOLERANCE; literals; ring).
  unfold bespoke_status. rewrite bespoke_arm_is_not_check.
  change (inject_Z MAX_DROPDOWN_LIMIT) with 400.
  destruct (Qlt_le_dec 2921 height) as [Tall | Fits].
  - right. destruct (bespoke_capped base) as [Hideal [Hd Hf]]; [lra|].
    apply leb_false in Hideal. rewrite Hideal.
    split; [exact Tall|]. split; [reflexivity|].
    rewrite (round_comp _ _ Hd), (round_comp _ _ Hf).
    split; reflexivity.
  - left. split; [exact Fits|].
    assert (Py.leb (bespoke_ideal_dropdown base) 400 = true) as ->.
    { apply leb_spec.
      destruct (bespoke_ideal_dropdown_cases base) as [[_ ->] | [_ ->]]; lra. }
    reflexivity.
Qed.

Lemma bespoke_ok_up_to_2921_witness :
  exists r,
    calculate_for_row scenario_D = Returned r
    /\ Recommended_Dropdown_Height_mm r = Some (Dropdown_Height_mm r).
Proof.
  destruct (bespoke_ok_up_to_2921 2200 2600 2 (Some MADE_TO_MEASURE) (Some 762))
    as [r [Hr [Hrec _]]].
  - reflexivity.
  - exists r. split; [exact Hr | exact Hrec].
Defined.

(** X11.  With the bespoke dropdown, for a whole height from 90 to 2921,
    the opening is filled exactly: door height + dropdown + 36 + 54 =
    height, where the door is [min(height - 90, 2431)] and the dropdown is
    what is left above a door of 2431, [max(height - 2521, 0)]. *)
Theorem bespoke_fills_the_opening
  (w : Q) (hz d : Z) (ds : option string) (fw : option Q) :
  String.eqb (Py.get ds MADE_TO_MEASURE) FIXED_SYSTEM = false ->
  (90 <= hz <= 2921)%Z ->
  exists r,
    calculate_for_row
      (mkRow (Some w) (Some (inject_Z hz)) (Some d) ds
             (Some BESPOKE_DROPDOWN_LABEL) fw) = Returned r
    /\ Door_Height_mm r = Z.min (hz - 90) 2431
    /\ Dropdown_Height_mm r = Z.max (hz - 2521) 0
    /\ (Door_Height_mm r + Dropdown_Height_mm r
        + BOTTOM_LINER_THICKNESS + TRACKSET_TOLERANCE = hz)%Z.
Proof.
  intros Hds [Lo Hi].
  destruct (calculate_bespoke w (inject_Z hz) d ds fw Hds)
    as [r [Hr [Hdoor [Hdrop _]]]].
  exists r. split; [exact Hr|].
  unfold clamp_height in Hdoor, Hdrop.
  rewrite (clamp_whole hz) in Hdoor, Hdrop by lia.
  set (base := base_usable_height (inject_Z hz)) in *.
  assert (base == inject_Z (hz - 90)) as Hbase
    by (unfold base, base_usable_height, BOTTOM_LINER_THICKNESS,
          TRACKSET_TOLERANCE; rewrite inject_Z_sub; literals; ring).
  assert (inject_Z 0 <= inject_Z (hz - 90)) as B0 by (rewrite <- Zle_Qle; lia).
  assert (inject_Z (hz - 90) <= inject_Z 2831) as B1
    by (rewrite <- Zle_Qle; lia).
  destruct (bespoke_fits base) as [Hsum Hcase];
    [rewrite Hbase; exact B0 | rewrite Hbase; exact B1 |].
  assert (Door_Height_mm r = Z.min (hz - 90) 2431
          /\ Dropdown_Height_mm r = Z.max (hz - 2521) 0) as [Ed Ep].
  { destruct Hcase as [[Hle Hd0] | [Hge Hf]].
    - assert (bespoke_final_door_h base == inject_Z (hz - 90)) as Hf
        by (rewrite <- Hbase; rewrite Hd0 in Hsum; lra).
      rewrite Hdoor, Hdrop, (round_comp _ _ Hf), (round_comp _ 0 Hd0), round_Z.
      rewrite Hbase in Hle. change 2431 with (inject_Z 2431) in Hle.
      rewrite <- Zle_Qle in Hle. change (Py.round 0) with 0%Z. lia.
    - assert (bespoke_dropdown_h base == inject_Z (hz - 2521)) as Hd0.
      { rewrite inject_Z_sub. rewrite inject_Z_sub in Hbase.
        change (inject_Z 90) with 90 in Hbase. literals. lra. }
      rewrite Hdoor, Hdrop, (round_comp _ 2431 Hf), (round_comp _ _ Hd0), round_Z.
      rewrite Hbase in Hge. change 2431 with (inject_Z 2431) in Hge.
      rewrite <- Zle_Qle in Hge. change (Py.round 2431) with 2431%Z. lia. }
  split; [exact Ed|]. split; [exact Ep|].
  rewrite Ed, Ep. unfold BOTTOM_LINER_THICKNESS, TRACKSET_TOLERANCE. lia.
Qed.

Lemma bespoke_fills_the_opening_witness :
  exists r,
    calculate_for_row scenario_D = Returned r
    /\ (Door_Height_mm r + Dropdown_Height_mm r
        + BOTTOM_LINER_THICKNESS + TRACKSET_TOLERANCE = 2600)%Z.
Proof.
  destruct (bespoke_fills_the_opening 2200 2600 2 (Some MADE_TO_MEASURE) (Some 762))
    as [r [Hr [_ [_ Hsum]]]].
  - reflexivity.
  - lia.
  - exists r. split; [exact Hr | exact Hsum].
Defined.

Lemma selected_dropdown_under_limit (option : string) :
  let dd := Py.dict_get String.eqb TOP_LINER_OPTIONS option 108%Z in
  Py.min (inject_Z dd) (inject_Z MAX_DROPDOWN_LIMIT) = inject_Z dd
  /\ (0 <= dd <= 108)%Z.
Proof.
  intro dd. pose proof (top_liner_option_values option) as Hin.
  fold dd in Hin. simpl in Hin.
  destruct Hin as [<- | [<- | [<- | [<- | []]]]]; split; (reflexivity || lia).
Qed.

(** X12.  Made to measure with a selected dropdown, on a whole height of at
    least 1: the dropdown reported is the selected one (108 when the option
    is absent or unknown); the door is what is left of the height after 36,
    54 and the dropdown, not below 0 and capped at 2431; and the status is
    "OK" when that rest is at most 2431, else the message naming the
    dropdown needed, [height - 2521], for heights up to 2921, else the
    message that even 400 is not enough.  No dropdown is recommended. *)
Theorem selected_dropdown_heights
  (w : Q) (hz d : Z) (ds tl : option string) (fw : option Q) :
  String.eqb (Py.get ds MADE_TO_MEASURE) FIXED_SYSTEM = false ->
  String.eqb (Py.get tl "108mm Dropdown"%string) BESPOKE_DROPDOWN_LABEL = false ->
  (1 <= hz)%Z ->
  let dd := Py.dict_get String.eqb TOP_LINER_OPTIONS
              (Py.get tl "108mm Dropdown"%string) 108%Z in
  exists r,
    calculate_for_row (mkRow (Some w) (Some (inject_Z hz)) (Some d) ds tl fw)
    = Returned r
    /\ Dropdown_Height_mm r = dd
    /\ Door_Height_mm r = Z.min (Z.max (hz - 90 - dd) 0) 2431
    /\ Recommended_Dropdown_Height_mm r = None
    /\ Height_Status r
       = (if (hz - 90 - dd <=? 2431)%Z then "OK"%string
          else if (hz <=? 2921)%Z then
                 ("Too tall for selected dropdown – need about "
                  ++ Py.str (hz - 2521)
                  ++ "mm dropdown (includes 54mm trackset tolerance).")%string
               else TOO_TALL_AT_MAX).
Proof.
  intros Hds Hopt Hh dd. eexists.
  split; [apply calculate_for_row_made_to_measure; exact Hds|].
  unfold clamp_height. rewrite (clamp_whole hz Hh).
  cbn [calculate_made_to_measure Dropdown_Height_mm Door_Height_mm
       Recommended_Dropdown_Height_mm Height_Status Top_Liner_Option].
  rewrite Hopt. unfold plan_selected. fold dd.
  destruct (selected_dropdown_under_limit (Py.get tl "108mm Dropdown"%string))
    as [Hmin Hdd].
  fold dd in Hmin, Hdd. rewrite Hmin.
  set (base := base_usable_height (inject_Z hz)).
  assert (base == inject_Z hz - 90) as Hbase
    by (unfold base, base_usable_height, BOTTOM_LINER_THICKNESS,
          TRACKSET_TOLERANCE; literals; ring).
  set (X := (hz - 90 - dd)%Z).
  assert (base - inject_Z dd == inject_Z X) as HX
    by (unfold X; rewrite !inject_Z_sub, Hbase; literals; ring).
  assert (Py.max (base - inject_Z dd) 0 == inject_Z (Z.max X 0)) as Hraw.
  { destruct (max_cases (base - inject_Z dd) 0) as [[L ->] | [L ->]].
    - rewrite HX in L. change 0 with (inject_Z 0) in L.
      rewrite <- Zlt_Qlt in L. rewrite Z.max_r by lia. reflexivity.
    - rewrite HX in L. change 0 with (inject_Z 0) in L.
      rewrite <- Zle_Qle in L. rewrite Z.max_l by lia. exact HX. }
  change (inject_Z MAX_DOOR_HEIGHT) with (inject_Z 2431).
  destruct (Z.leb_spec X 2431) as [Fit | Tall].
  - assert (Py.leb (Py.max (base - inject_Z dd) 0) (inject_Z 2431) = true) as ->.
    { apply leb_spec. rewrite Hraw, <- Zle_Qle. lia. }
    cbn [dropdown_h final_door_h recommended_dropdown height_status].
    rewrite (round_comp _ _ Hraw), !round_Z.
    repeat split; try reflexivity. lia.
  - assert (Py.leb (Py.max (base - inject_Z dd) 0) (inject_Z 2431) = false) as ->.
    { apply leb_false. rewrite Hraw, <- Zlt_Qlt. lia. }
    cbn [dropdown_h final_door_h recommended_dropdown height_status].
    rewrite !round_Z.
    split; [reflexivity|]. split; [lia|]. split; [reflexivity|].
    assert (base - inject_Z 2431 == inject_Z (hz - 2521)) as Hneed
      by (rewrite inject_Z_sub, Hbase; literals; ring).
    destruct (Z.leb_spec hz 2921) as [Near | Far].
    + assert (Py.leb (base - inject_Z 2431) (inject_Z MAX_DROPDOWN_LIMIT) = true)
        as ->.
      { apply leb_spec. rewrite Hneed. unfold MAX_DROPDOWN_LIMIT.
        rewrite <- Zle_Qle. lia. }
      unfold too_tall_for_selected.
      rewrite (round_comp _ _ Hneed), round_Z. reflexivity.
    + assert (Py.leb (base - inject_Z 2431) (inject_Z MAX_DROPDOWN_LIMIT) = false)
        as ->.
      { apply leb_false. rewrite Hneed. unfold MAX_DROPDOWN_LIMIT.
        rewrite <- Zlt_Qlt. lia. }
      reflexivity.
Qed.

Lemma selected_dropdown_heights_witness :
  exists r,
    calculate_for_row scenario_A = Returned r
    /\ Dropdown_Height_mm r = 108%Z
    /\ Door_Height_mm r = 2402%Z.
Proof.
  destruct (selected_dropdown_heights
              2200 2600 3 (Some MADE_TO_MEASURE)
              (Some "108mm Dropdown"%string) (Some 762))
    as [r [Hr [Hd [Hh _]]]].
  - reflexivity.
  - reflexivity.
  - lia.
  - exists r. split; [exact Hr|]. split; [exact Hd | exact Hh].
Defined.

(** X13.  A top liner option that is neither the bespoke label nor one of
    the four listed dropdowns is read as "108mm Dropdown", and so is an
    absent one: the three rows get the same result, in either door
    system. *)
Theorem unknown_top_liner_option_is_108
  (w h : Q) (d : Z) (ds : option string) (s : string) (fw : option Q) :
  existsb (String.eqb s) (BESPOKE_DROPDOWN_LABEL :: map fst TOP_LINER_OPTIONS)
  = false ->
  calculate_for_row (mkRow (Some w) (Some h) (Some d) ds (Some s) fw)
  = calculate_for_row
      (mkRow (Some w) (Some h) (Some d) ds (Some "108mm Dropdown"%string) fw)
  /\ calculate_for_row (mkRow (Some w) (Some h) (Some d) ds None fw)
     = calculate_for_row
         (mkRow (Some w) (Some h) (Some d) ds (Some "108mm Dropdown"%string) fw).
Proof.
  intro Hs. split; [|reflexivity].
  cbn [existsb map fst TOP_LINER_OPTIONS] in Hs.
  repeat (apply orb_false_iff in Hs; destruct Hs as [? Hs]).
  unfold calculate_for_row.
  cbn [Py.getitem Py.bind Width_mm Height_mm Doors Door_System].
  destruct (String.eqb (Py.get ds MADE_TO_MEASURE) FIXED_SYSTEM);
    [reflexivity|].
  f_equal. unfold calculate_made_to_measure.
  cbn [Top_Liner_Option Py.get].
  assert (String.eqb s BESPOKE_DROPDOWN_LABEL = false) as -> by assumption.
  change (String.eqb "108mm Dropdown" BESPOKE_DROPDOWN_LABEL) with false.
  assert (plan_selected s (base_usable_height (clamp_height h))
          = plan_selected "108mm Dropdown" (base_usable_height (clamp_height h)))
    as ->; [|reflexivity].
  unfold plan_selected.
  assert (Py.dict_get String.eqb TOP_LINER_OPTIONS s 108%Z = 108%Z) as ->;
    [|reflexivity].
  unfold TOP_LINER_OPTIONS. cbv [Py.dict_get].
  rewrite !(String.eqb_sym _ s).
  repeat match goal with
         | E : String.eqb s _ = false |- _ => rewrite E; clear E
         end.
  reflexivity.
Qed.

Lemma unknown_top_liner_option_is_108_witness :
  calculate_for_row
    (mkRow (Some 2200) (Some 2600) (Some 3%Z) (Some MADE_TO_MEASURE)
           (Some "120mm Dropdown"%string) (Some 762))
  = calculate_for_row scenario_A.
Proof.
  apply (unknown_top_liner_option_is_108
           2200 2600 3 (Some MADE_TO_MEASURE) "120mm Dropdown" (Some 762)).
  reflexivity.
Defined.

(** X14.  A dropdown is recommended exactly in the bespoke sub-mode of made
    to measure, and it is then the dropdown reported; the fixed system and
    the selected dropdowns recommend none. *)
Theorem recommended_dropdown_only_when_bespoke
  (w h : Q) (d : Z) (ds tl : option string) (fw : option Q) :
  exists r,
    calculate_for_row (mkRow (Some w) (Some h) (Some d) ds tl fw) = Returned r
    /\ Recommended_Dropdown_Height_mm r
       = if negb (String.eqb (Py.get ds MADE_TO_MEASURE) FIXED_SYSTEM)
            && String.eqb (Py.get tl "108mm Dropdown"%string)
                          BESPOKE_DROPDOWN_LABEL
         then Some (Dropdown_Height_mm r)
         else None.
Proof.
  unfold calculate_for_row.
  cbn [Py.getitem Py.bind Width_mm Height_mm Doors Door_System].
  destruct (String.eqb (Py.get ds MADE_TO_MEASURE) FIXED_SYSTEM).
  - eexists. split; reflexivity.
  - eexists. split; [reflexivity|].
    cbn [calculate_made_to_measure Recommended_Dropdown_Height_mm
         Dropdown_Height_mm Top_Liner_Option negb andb].
    destruct (String.eqb (Py.get tl "108mm Dropdown"%string)
                         BESPOKE_DROPDOWN_LABEL).
    + reflexivity.
    + unfold plan_selected.
      destruct (Py.leb _ _); reflexivity.
Qed.

(** X15.  A column that belongs to the other door system is never read: the
    fixed system returns the same result whatever the top liner option, and
    every other door system returns the same result whatever the fixed door
    width. *)
Theorem other_systems_columns_are_ignored
  (w h : Q) (d : Z) (s : string) (tl tl' : option string) (fw fw' : option Q) :
  s <> FIXED_SYSTEM ->
  calculate_for_row (mkRow (Some w) (Some h) (Some d) (Some FIXED_SYSTEM) tl fw)
  = calculate_for_row
      (mkRow (Some w) (Some h) (Some d) (Some FIXED_SYSTEM) tl' fw)
  /\ calculate_for_row (mkRow (Some w) (Some h) (Some d) (Some s) tl fw)
     = calculate_for_row (mkRow (Some w) (Some h) (Some d) (Some s) tl fw').
Proof.
  intro Hs. apply String.eqb_neq in Hs. split; [reflexivity|].
  unfold calculate_for_row.
  cbn [Py.getitem Py.bind Width_mm Height_mm Doors Door_System Py.get].
  rewrite Hs. reflexivity.
Qed.

Lemma other_systems_columns_are_ignored_witness :
  calculate_for_row
    (mkRow (Some 2200) (Some 2600) (Some 3%Z) (Some MADE_TO_MEASURE)
           (Some "108mm Dropdown"%string) (Some 914))
  = calculate_for_row scenario_A.
Proof.
  destruct (other_systems_columns_are_ignored
              2200 2600 3 MADE_TO_MEASURE (Some "108mm Dropdown"%string)
              None (Some 914) (Some 762)) as [_ H].
  - discriminate.
  - exact H.
Defined.

(** *** The diagram: where the door leaves go *)

(** The door leaves of the figure, with where they start. *)
Lemma rendered_doors_of_diagram_at
  (opening_width_mm opening_height_mm bottom_thk_mm side_thk_mm
   dropdown_height_mm door_height_mm : Q) (num_doors : Z) (door_width_mm : Q)
  (dropdown_label : string) :
  let width := Py.max opening_width_mm 1 in
  let height := Py.max opening_height_mm 1 in
  let side_rel := Py.max side_thk_mm 0 / width in
  let n := Z.max num_doors 1 in
  rendered_doors
    (draw_wardrobe_diagram opening_width_mm opening_height_mm bottom_thk_mm
       side_thk_mm dropdown_height_mm door_height_mm num_doors door_width_mm
       dropdown_label)
  = rendered_doors
      (door_leaves (Z.to_nat n) side_rel (bottom_thk_mm / height)
         (clamp_door_width_rel n side_rel
            (door_width_rel_of width (Py.max door_width_mm 0)))
         (if Py.ltb 0 door_height_mm then door_height_mm / height else 0)).
Proof.
  intros width height side_rel n. unfold draw_wardrobe_diagram.
  fold width. fold height. fold side_rel. fold n.
  rewrite !rendered_doors_app.
  match goal with
  | |- (?a ++ ?b ++ ?c ++ ?d ++ ?e ++ ?f)%list = _ =>
      assert (a = []) as -> by reflexivity;
      assert (b = []) as -> by (destruct (Py.ltb 0 _); reflexivity);
      assert (d = []) as -> by reflexivity;
      assert (e = []) as -> by (destruct (String.eqb dropdown_label ""); reflexivity);
      assert (f = []) as -> by reflexivity
  end.
  rewrite !app_nil_r. reflexivity.
Qed.





(** *** The diagram: what is drawn *)

Lemma door_leaves_length (n : nat) (x y wd ht : Q) :
  length (door_leaves n x y wd ht) = n
  /\ existsb is_dropdown_note (door_leaves n x y wd ht) = false.
Proof.
  revert x. induction n as [|n IH]; intro x; [split; reflexivity|].
  destruct (IH (x + wd)) as [Hl He]. cbn [door_leaves length existsb].
  rewrite Hl, He. split; reflexivity.
Qed.

(** X17.  The diagram shows the dropdown, a rectangle and its fixing note,
    exactly when the dropdown height is positive; the label above the
    opening when it is not empty; one leaf per door and at least one.  So
    it holds 11 artists that are always there, one per door, two for the
    dropdown and one for the label. *)
Theorem diagram_artists
  (opening_width_mm opening_height_mm bottom_thk_mm side_thk_mm
   dropdown_height_mm door_height_mm : Q) (num_doors : Z) (door_width_mm : Q)
  (dropdown_label : string) :
  let fig :=
    draw_wardrobe_diagram opening_width_mm opening_height_mm bottom_thk_mm
      side_thk_mm dropdown_height_mm door_height_mm num_doors door_width_mm
      dropdown_label in
  existsb is_dropdown_note fig = Py.ltb 0 dropdown_height_mm
  /\ length (rendered_doors fig) = Z.to_nat (Z.max num_doors 1)
  /\ length fig
     = (11 + Z.to_nat (Z.max num_doors 1)
        + (if Py.ltb 0 dropdown_height_mm then 2 else 0)
        + (if String.eqb dropdown_label "" then 0 else 1))%nat.
Proof.
  intro fig.
  assert (Py.ltb 0 (if Py.ltb 0 dropdown_height_mm
                    then dropdown_height_mm / Py.max opening_height_mm 1
                    else 0)
          = Py.ltb 0 dropdown_height_mm) as Hrel.
  { destruct (Py.ltb 0 dropdown_height_mm) eqn:E; [|reflexivity].
    apply ltb_spec in E. apply ltb_spec.
    pose proof (clamp_width_ge_1 opening_height_mm) as H1.
    unfold clamp_width in H1.
    apply Qlt_shift_div_l; lra. }
  split; [|split].
  - unfold fig, draw_wardrobe_diagram. rewrite !existsb_app, Hrel.
    rewrite (proj2 (door_leaves_length _ _ _ _ _)).
    destruct (Py.ltb 0 dropdown_height_mm);
      destruct (String.eqb dropdown_label ""); reflexivity.
  - unfold fig. rewrite rendered_doors_of_diagram_at.
    apply rendered_door_leaves.
  - unfold fig, draw_wardrobe_diagram. rewrite !length_app, Hrel.
    rewrite (proj1 (door_leaves_length _ _ _ _ _)).
    destruct (Py.ltb 0 dropdown_height_mm);
      destruct (String.eqb dropdown_label ""); cbn [length]; lia.
Qed.

(** *** The visualisation step *)


(** X19.  Whenever the step that draws returns a figure, the figure carries
    a label above the opening and the label is never empty: the dropdown
    reported followed by "mm DROPDOWN" when it is positive and
    "NO DROPDOWN" when it is not, with "BESPOKE" in front exactly for a
    made-to-measure row with the bespoke option. *)
Theorem dropdown_label_is_drawn
  (row : Row) (res : DimensionResult)
  (after : Row * DimensionResult) (fig : list artist) :
  visualise row res = Returned (after, fig) ->
  let dd := Dropdown_Height_mm res in
  let bespoke :=
    match Door_System row, Top_Liner_Option row with
    | Some s, Some o =>
        String.eqb s MADE_TO_MEASURE && String.eqb o BESPOKE_DROPDOWN_LABEL
    | _, _ => false
    end in
  exists label,
    dropdown_label_for row res = Returned label
    /\ label <> ""%string
    /\ In (Text (1 # 2) (105 # 100) label) fig
    /\ label
       = (if bespoke
          then if (0 <? dd)%Z
               then ("BESPOKE " ++ Py.str dd ++ "mm DROPDOWN")%string
               else "BESPOKE – NO DROPDOWN"%string
          else if (0 <? dd)%Z
               then (Py.str dd ++ "mm DROPDOWN")%string
               else "NO DROPDOWN"%string).
Proof.
  intros H dd bespoke. unfold visualise in H.
  destruct (dropdown_label_for row res) as [label|] eqn:El; [|discriminate].
  cbn [Py.bind] in H.
  destruct (Width_mm row) as [wd|]; [|discriminate].
  destruct (Height_mm row) as [ht|]; [|discriminate].
  cbn [Py.getitem Py.bind] in H. injection H as _ Hfig.
  exists label. split; [reflexivity|].
  assert (label
          = (if bespoke
             then if (0 <? dd)%Z
                  then ("BESPOKE " ++ Py.str dd ++ "mm DROPDOWN")%string
                  else "BESPOKE – NO DROPDOWN"%string
             else if (0 <? dd)%Z
                  then (Py.str dd ++ "mm DROPDOWN")%string
                  else "NO DROPDOWN"%string)) as Hform.
  { unfold dropdown_label_for in El. fold dd in El. unfold bespoke.
    destruct (Door_System row) as [s|]; [|discriminate].
    cbn [Py.getitem Py.bind] in El.
    destruct (String.eqb s MADE_TO_MEASURE); cbn [andb].
    - destruct (Top_Liner_Option row) as [o|]; [|discriminate].
      cbn [Py.getitem Py.bind] in El.
      destruct (String.eqb o BESPOKE_DROPDOWN_LABEL);
        [destruct (0 <? dd)%Z|]; congruence.
    - destruct (Top_Liner_Option row); congruence. }
  assert (label <> ""%string) as Hne.
  { rewrite Hform.
    destruct bespoke, (0 <? dd)%Z; try discriminate.
    destruct (Py.str dd); discriminate. }
  split; [exact Hne|]. split; [|exact Hform].
  rewrite <- Hfig. unfold draw_wardrobe_diagram.
  do 4 (apply in_or_app; right). apply in_or_app; left.
  apply String.eqb_neq in Hne. rewrite Hne. left. reflexivity.
Qed.

Lemma dropdown_label_is_drawn_witness :
  exists label,
    dropdown_label_for scenario_A
      (calculate_made_to_measure 2200 2600 3 scenario_A) = Returned label
    /\ label = "108mm DROPDOWN"%string.
Proof.
  destruct (dropdown_label_is_drawn
              scenario_A (calculate_made_to_measure 2200 2600 3 scenario_A)
              _ _ eq_refl) as [label [Hl [_ [_ Hform]]]].
  exists label. split; [exact Hl | exact Hform].
Defined.

(** *** The results table *)







(** X21.  The results section is replaced by the note asking for an opening
    exactly when the table is empty; with openings in the table it raises
    what the engine raises for the first opening (in table order) the
    engine fails on, and is shown when there is none. *)
Theorem results_section_outcome (edited_df : list Row) :
  match edited_df with
  | [] => results_section edited_df = Returned None
  | _ :: _ =>
      match apply_rows edited_df with
      | Returned results =>
          exists section,
            results_section edited_df = Returned (Some section)
            /\ results_df section = results
      | Raised e =>
          results_section edited_df = Raised e
          /\ exists before row after,
               edited_df = (before ++ row :: after)%list
               /\ calculate_for_row row = Raised e
               /\ Forall (fun row' => exists r, calculate_for_row row' = Returned r)
                         before
      end
  end.
Proof.
  destruct edited_df as [|row0 rest0]; [reflexivity|].
  set (df := row0 :: rest0).
  assert (results_section df
          = (results <- apply_rows df ;;
             Returned
               (Some {| results_df := results;
                        warning_shown := height_warning results;
                        openings_to_check :=
                          match problem_rows results with
                          | [] => None
                          | _ :: _ => Some (problem_rows results)
                          end |}))) as Hs by reflexivity.
  rewrite Hs. clear Hs.
  destruct (apply_rows df) as [results|e] eqn:Ea; cbn [Py.bind].
  - eexists. split; reflexivity.
  - split; [reflexivity|].
    clearbody df. clear row0 rest0. revert e Ea.
    induction df as [|row rest IH]; intros e Ea; [discriminate|].
    cbn [apply_rows] in Ea.
    destruct (calculate_for_row row) as [calc|e'] eqn:Ec; cbn [Py.bind] in Ea.
    + destruct (apply_rows rest) as [calcs|e''] eqn:Er; [discriminate|].
      cbn [Py.bind] in Ea. injection Ea as <-.
      destruct (IH e'' eq_refl) as [before [bad [after [Hsplit [Hbad Hok]]]]].
      exists (row :: before), bad, after.
      split; [rewrite Hsplit; reflexivity|]. split; [exact Hbad|].
      constructor; [exists calc; exact Ec | exact Hok].
    + injection Ea as <-. exists [], row, rest.
      split; [reflexivity|]. split; [exact Ec | constructor].
Qed.

(** *** From the engine to the diagram *)






(** *** The diagram: out-of-range inputs *)

Lemma max_idempotent (a b : Q) : Py.max (Py.max a b) b = Py.max a b.
Proof.
  unfold Py.max, Qmax, GenericMinMax.gmax.
  destruct (a ?= b) eqn:E; rewrite ?E; try reflexivity.
  destruct (b ?= b); reflexivity.
Qed.

(** X23.  The diagram never divides by a width or height below 1 and never
    draws fewer than one door: an opening width or height below 1 is drawn
    as 1, a door count below 1 as one door, a negative side liner thickness
    or door width as 0.  The figure is the one drawn for the clamped
    values. *)
Theorem diagram_clamps_its_inputs
  (opening_width_mm opening_height_mm bottom_thk_mm side_thk_mm
   dropdown_height_mm door_height_mm : Q) (num_doors : Z) (door_width_mm : Q)
  (dropdown_label : string) :
  draw_wardrobe_diagram opening_width_mm opening_height_mm bottom_thk_mm
    side_thk_mm dropdown_height_mm door_height_mm num_doors door_width_mm
    dropdown_label
  = draw_wardrobe_diagram (Py.max opening_width_mm 1)
      (Py.max opening_height_mm 1) bottom_thk_mm (Py.max side_thk_mm 0)
      dropdown_height_mm door_height_mm (Z.max num_doors 1)
      (Py.max door_width_mm 0) dropdown_label
  /\ 1 <= Py.max opening_width_mm 1
  /\ 1 <= Py.max opening_height_mm 1
  /\ (1 <= Z.max num_doors 1)%Z.
Proof.
  split; [|split; [apply clamp_width_ge_1|split; [apply clamp_width_ge_1|lia]]].
  unfold draw_wardrobe_diagram.
  rewrite !max_idempotent, <- Z.max_assoc, Z.max_id. reflexivity.
Qed.
